(** * multi_ai_agent_web_app: the browser client and the orchestration core

    A shallow embedding of the JavaScript front end (frontend/js/ws.js,
    chart.js, api.js, config.js, history.js, main.js, ui.js, flow.js,
    file_upload.js, auth.js and costProgressApp.js) together with the
    PostgreSQL column defaults of db/init_db.bat.  The Python back end (orchestrator, cost ledger,
    streaming hub, submit endpoint) is not part of the sources at hand; where
    a property depends on it, it is modelled from the specification and the
    definition says so.

    Conventions.
    - A JavaScript number is an IEEE 754 binary64 value: [spec_float] with
      precision 53 and maximal exponent 1024.
    - A JSON value is [Js.value]; an object is an association list in which
      the first binding of a key is the one that counts.
    - A template literal is kept as the list of its literal chunks and of the
      values substituted into its holes ([Js.template]) whenever a hole holds
      an arbitrary JSON value, since number-to-string conversion is a
      built-in of the engine and not code of this repository.
    - Handlers that can raise return an [outcome]: the state reached and,
      when an exception escaped, which one. *)

From Stdlib Require Import List String Ascii ZArith NArith Bool Arith Lia.
From Stdlib Require Import DecimalString DecimalN.
From Stdlib Require Import Floats.SpecFloat.
Import ListNotations.

Set Warnings "-register-all".
Open Scope string_scope.
Close Scope list_scope.
Open Scope list_scope.

(* ================================================================== *)
(** * JavaScript values                                                 *)
(* ================================================================== *)

Module Js.

(** binary64 *)
Definition prec : Z := 53.
Definition emax : Z := 1024.

Definition number := spec_float.

Definition NaN : number := S754_nan.
Definition pos_zero : number := S754_zero false.
Definition pos_infinity : number := S754_infinity false.

(** The literal [100] = 25 * 2^48 * 2^-46, mantissa on 53 bits. *)
Definition hundred : number := S754_finite false (25 * 2 ^ 48) (-46).

(** The literal [1]. *)
Definition one : number := S754_finite false (2 ^ 52) (-52).

Definition div : number -> number -> number := SFdiv prec emax.
Definition mul : number -> number -> number := SFmul prec emax.

(** [a > b], [a >= b], [a < b], [a <= b]; all false on NaN. *)
Definition gt (a b : number) : bool := SFltb b a.
Definition ge (a b : number) : bool := SFleb b a.
Definition lt (a b : number) : bool := SFltb a b.
Definition le (a b : number) : bool := SFleb a b.

Definition is_nan (a : number) : bool :=
  match a with S754_nan => true | _ => false end.

Definition is_zero (a : number) : bool :=
  match a with S754_zero _ => true | _ => false end.

Definition is_finite (a : number) : bool :=
  match a with
  | S754_zero _ | S754_finite _ _ _ => true
  | S754_infinity _ | S754_nan => false
  end.

(** Neither NaN nor negative: a zero of either sign, a positive finite
    number or +Infinity. *)
Definition nonneg (x : number) : Prop :=
  match x with
  | S754_zero _ => True
  | S754_infinity s => s = false
  | S754_nan => False
  | S754_finite s _ _ => s = false
  end.

(** [Math.min(a, b)]: NaN if either argument is NaN, and -0 is smaller
    than +0. *)
Definition math_min (a b : number) : number :=
  match a, b with
  | S754_nan, _ | _, S754_nan => S754_nan
  | S754_zero sa, S754_zero sb => S754_zero (sa || sb)
  | _, _ => if SFltb b a then b else a
  end.

Inductive value : Type :=
| Undefined
| Null
| Bool (b : bool)
| Num (n : number)
| Str (s : string)
| Arr (xs : list value)
| Obj (fields : list (string * value)).

(** ToBoolean *)
Definition truthy (v : value) : bool :=
  match v with
  | Undefined | Null => false
  | Bool b => b
  | Num n => negb (is_zero n || is_nan n)
  | Str s => negb (s =? EmptyString)
  | Arr _ | Obj _ => true
  end.

Fixpoint assoc (k : string) (fields : list (string * value)) : value :=
  match fields with
  | [] => Undefined
  | (k', v) :: rest => if k' =? k then v else assoc k rest
  end.

(** [v.k] for a value that is neither [null] nor [undefined] and a key
    that is no index and no built-in property: only plain objects carry
    such a key. *)
Definition get (v : value) (k : string) : value :=
  match v with
  | Obj fields => assoc k fields
  | _ => Undefined
  end.

Definition nullish (v : value) : bool :=
  match v with Undefined | Null => true | _ => false end.

(** [v?.k] *)
Definition get_opt (v : value) (k : string) : value :=
  if nullish v then Undefined else get v k.

(** [a || b] *)
Definition or_else (a b : value) : value :=
  if truthy a then a else b.

(** Conversions that belong to the engine: the numeric value of a string
    and the string an array converts to ([Array.prototype.join]). *)
Record builtins : Type := {
  StringToNumber : string -> number;
  ArrayToString : list value -> string
}.

(** [Number(v)] *)
Definition to_number (B : builtins) (v : value) : number :=
  match v with
  | Undefined => NaN
  | Null => pos_zero
  | Bool true => one
  | Bool false => pos_zero
  | Num n => n
  | Str s => StringToNumber B s
  | Arr xs => StringToNumber B (ArrayToString B xs)
  | Obj _ => NaN
  end.

(** A template literal with its holes still filled by values. *)
Inductive chunk : Type :=
| Lit (s : string)
| Hole (v : value)           (* a hole: the value is converted to a string *)
| Stringified (v : value).   (* a hole holding JSON.stringify(v, null, 2) *)

Definition template := list chunk.

(** [typeof v === 'number'] *)
Definition is_number (v : value) : bool :=
  match v with Num _ => true | _ => false end.

(** Replace (or add) a property of an object; other values are left
    alone. *)
Fixpoint assoc_set (k : string) (v : value) (fields : list (string * value))
  : list (string * value) :=
  match fields with
  | [] => [(k, v)]
  | (k', v') :: rest =>
      if k' =? k then (k, v) :: rest else (k', v') :: assoc_set k v rest
  end.

Definition set (o : value) (k : string) (v : value) : value :=
  match o with
  | Obj fields => Obj (assoc_set k v fields)
  | _ => o
  end.

End Js.

(** Exceptions that can escape a handler. *)
Inductive error : Type :=
| TypeError
| SyntaxError
| HttpError (status : nat).

Inductive outcome (S : Type) : Type :=
| Done (s : S)
| Thrown (e : error) (s : S).

Arguments Done {S} s.
Arguments Thrown {S} e s.

Definition final {S : Type} (o : outcome S) : S :=
  match o with
  | Done s => s
  | Thrown _ s => s
  end.

Definition raised {S : Type} (o : outcome S) : option error :=
  match o with
  | Done _ => None
  | Thrown e _ => Some e
  end.

(** Statement sequencing: what follows a [throw] is skipped. *)
Definition seq {S : Type} (f g : S -> outcome S) : S -> outcome S :=
  fun s =>
    match f s with
    | Done s' => g s'
    | Thrown e s' => Thrown e s'
    end.

(** [try { f } catch {}] *)
Definition try_catch {S : Type} (f : S -> outcome S) : S -> outcome S :=
  fun s => Done (final (f s)).

Definition skip {S : Type} : S -> outcome S := fun s => Done s.

Definition when {S : Type} (c : bool) (f : S -> outcome S) : S -> outcome S :=
  if c then f else skip.

Notation "f ;; g" := (seq f g) (at level 61, right associativity).

(* ================================================================== *)
(** * js/chart.js                                                       *)
(* ================================================================== *)

Module Chart.

(** The part of the Chart.js instance that [CostChart] touches:
    [chart.data.labels] and [chart.data.datasets[0].data].  [updates]
    counts the calls of [chart.update()]. *)
Record CostChart : Type := {
  labels : list Js.value;
  data : list Js.value;
  updates : nat
}.

Record canvas : Type := {
  context2d : bool  (* does [getContext('2d')] return a context? *)
}.

(** The chart the constructor configures: no label, no data point. *)
Definition fresh : CostChart :=
  {| labels := []; data := []; updates := 0 |}.

(** [new CostChart(canvas)]: raises when no 2D context is available. *)
Definition constructor (c : canvas) : option CostChart :=
  if context2d c then Some fresh else None.

Definition add (label value : Js.value) (c : CostChart) : CostChart :=
  {| labels := labels c ++ [label];
     data := data c ++ [value];
     updates := S (updates c) |}.

Definition reset (c : CostChart) : CostChart :=
  {| labels := []; data := []; updates := S (updates c) |}.

(** The operations a holder of a chart can perform. *)
Inductive op : Type :=
| OpAdd (label value : Js.value)
| OpReset.

Definition apply (o : op) (c : CostChart) : CostChart :=
  match o with
  | OpAdd l v => add l v c
  | OpReset => reset c
  end.

Definition run (ops : list op) (c : CostChart) : CostChart :=
  fold_left (fun acc o => apply o acc) ops c.

(** The methods of the class, as looked up by name on an instance. *)
Inductive method : Type :=
| MAdd
| MReset.

Definition lookup_method (name : string) : option method :=
  if name =? "add" then Some MAdd
  else if name =? "reset" then Some MReset
  else None.

(** As many x-axis labels as data points. *)
Definition balanced (c : CostChart) : Prop :=
  List.length (labels c) = List.length (data c).

End Chart.

(* ================================================================== *)
(** * frontend/js/config.js                                             *)
(* ================================================================== *)

Module Config.

(** [window.location] *)
Record location : Type := {
  protocol : string;   (* "http:" or "https:" *)
  hostname : string;
  host : string
}.

Definition decimal (n : N) : string :=
  NilEmpty.string_of_uint (N.to_uint n).

Definition origin5000 (loc : location) : string :=
  (protocol loc ++ "//" ++ hostname loc ++ ":5000")%string.


Definition history (loc : location) : string :=
  (origin5000 loc ++ "/api/logs/history")%string.

Definition dl (loc : location) (id : N) : string :=
  (origin5000 loc ++ "/api/logs/download/" ++ decimal id)%string.

(** [Config] is the object literal [{ paths: {...} }].  Reading any
    other property of it gives [undefined]; ws.js reads [Config.wsBase] and
    [Config.apiBase]. *)
Definition own_properties : list string := ["paths"].

Definition other_property (name : string) : Js.value := Js.Undefined.

Definition wsBase : Js.value := other_property "wsBase".
Definition apiBase : Js.value := other_property "apiBase".

End Config.

(* ================================================================== *)
(** * The document                                                      *)
(* ================================================================== *)

Module Dom.

(** flow.js keeps the highlighted node in [window._prevAgentNode]; the
    rendered diagram, when there is one, is the list of element ids found
    under [#flow-diagram-body svg]. *)
Record flow_state : Type := {
  svg : option (list string);
  active : list string;          (* elements carrying class activeAgent *)
  prevAgentNode : option string
}.

Record toast : Type := {
  toast_message : Js.template;
  toast_type : Js.template
}.

(** history.js: one [<tr>] of the history table, by the values put into
    the slots of its markup. *)
Record history_row : Type := {
  cell_id : N;
  link_href : string;
  link_download : string;
  link_text : string;
  cell_created_at : string   (* the argument of [new Date(..)] *)
}.

Record history_table : Type := {
  table_class : string;
  thead : list string;
  tbody : list history_row
}.

(** The elements of the page built by [buildMain] (main.js) that the
    modelled modules read or write.  [history_container] is optional
    because [renderHistoryTable] tests for it. *)
Record page : Type := {
  currentAgent : Js.value;             (* #currentAgent.textContent *)
  currentPhase : Js.value;             (* #currentPhase.textContent *)
  downloadLink_href : Js.template;     (* #downloadLink.href *)
  download_section_hidden : bool;      (* #download-section.hidden *)
  logList : list Js.template;          (* <li> children of #logList *)
  agentInteractionList : list Js.template;
  flow : flow_state;
  toasts : list toast;                 (* .toast elements of the body *)
  history_container : option (list history_table);
  app_display : string;                (* #app.style.display *)
  login_display : string;              (* #login-container.style.display *)
  costChart : option Chart.CostChart   (* window.costChart *)
}.

(** The markup [buildMain] installs. *)
Definition built (f : flow_state) : page :=
  {| currentAgent := Js.Str "-";
     currentPhase := Js.Str "-";
     downloadLink_href := [Js.Lit "#"];
     download_section_hidden := true;
     logList := [];
     agentInteractionList := [];
     flow := f;
     toasts := [];
     history_container := Some [];
     app_display := EmptyString;
     login_display := EmptyString;
     costChart := None |}.

Definition set_currentAgent (v : Js.value) (p : page) : page :=
  {| currentAgent := v;
     currentPhase := currentPhase p;
     downloadLink_href := downloadLink_href p;
     download_section_hidden := download_section_hidden p;
     logList := logList p;
     agentInteractionList := agentInteractionList p;
     flow := flow p;
     toasts := toasts p;
     history_container := history_container p;
     app_display := app_display p;
     login_display := login_display p;
     costChart := costChart p |}.

Definition set_currentPhase (v : Js.value) (p : page) : page :=
  {| currentAgent := currentAgent p;
     currentPhase := v;
     downloadLink_href := downloadLink_href p;
     download_section_hidden := download_section_hidden p;
     logList := logList p;
     agentInteractionList := agentInteractionList p;
     flow := flow p;
     toasts := toasts p;
     history_container := history_container p;
     app_display := app_display p;
     login_display := login_display p;
     costChart := costChart p |}.

Definition set_download (href : Js.template) (hidden : bool) (p : page)
  : page :=
  {| currentAgent := currentAgent p;
     currentPhase := currentPhase p;
     downloadLink_href := href;
     download_section_hidden := hidden;
     logList := logList p;
     agentInteractionList := agentInteractionList p;
     flow := flow p;
     toasts := toasts p;
     history_container := history_container p;
     app_display := app_display p;
     login_display := login_display p;
     costChart := costChart p |}.

Definition set_flow (f : flow_state) (p : page) : page :=
  {| currentAgent := currentAgent p;
     currentPhase := currentPhase p;
     downloadLink_href := downloadLink_href p;
     download_section_hidden := download_section_hidden p;
     logList := logList p;
     agentInteractionList := agentInteractionList p;
     flow := f;
     toasts := toasts p;
     history_container := history_container p;
     app_display := app_display p;
     login_display := login_display p;
     costChart := costChart p |}.

Definition set_toasts (ts : list toast) (p : page) : page :=
  {| currentAgent := currentAgent p;
     currentPhase := currentPhase p;
     downloadLink_href := downloadLink_href p;
     download_section_hidden := download_section_hidden p;
     logList := logList p;
     agentInteractionList := agentInteractionList p;
     flow := flow p;
     toasts := ts;
     history_container := history_container p;
     app_display := app_display p;
     login_display := login_display p;
     costChart := costChart p |}.

Definition set_history (h : option (list history_table)) (p : page) : page :=
  {| currentAgent := currentAgent p;
     currentPhase := currentPhase p;
     downloadLink_href := downloadLink_href p;
     download_section_hidden := download_section_hidden p;
     logList := logList p;
     agentInteractionList := agentInteractionList p;
     flow := flow p;
     toasts := toasts p;
     history_container := h;
     app_display := app_display p;
     login_display := login_display p;
     costChart := costChart p |}.


End Dom.

(* ================================================================== *)
(** * frontend/js/flow.js                                               *)
(* ================================================================== *)

Module Flow.
Import Dom.

Definition AGENT_NODE_MAP : list (string * string) :=
  [ ("DB Design", "DBD");
    ("UI Generation", "UI");
    ("Code Generation", "CODE");
    ("QA", "QA");
    ("Security", "SEC");
    ("Patch", "PATCH") ].

(** Property names every object literal inherits from
    [Object.prototype]; their values are functions (or, for [__proto__],
    the prototype object), all truthy. *)
Definition object_prototype : list string :=
  [ "constructor"; "hasOwnProperty"; "isPrototypeOf";
    "propertyIsEnumerable"; "toLocaleString"; "toString"; "valueOf";
    "__proto__"; "__defineGetter__"; "__defineSetter__";
    "__lookupGetter__"; "__lookupSetter__" ].

Inductive looked_up : Type :=
| Own (id : string)
| Inherited
| Missing.

Fixpoint own (k : string) (m : list (string * string)) : option string :=
  match m with
  | [] => None
  | (k', v) :: rest => if k' =? k then Some v else own k rest
  end.

(** The property key a value converts to, when that key can name a
    property at all: numbers, booleans, [null], [undefined] and plain
    objects convert to strings that name nothing here. *)
Definition property_key (B : Js.builtins) (v : Js.value) : option string :=
  match v with
  | Js.Str s => Some s
  | Js.Arr xs => Some (Js.ArrayToString B xs)
  | _ => None
  end.

(** [AGENT_NODE_MAP[agent]] *)
Definition lookup (B : Js.builtins) (agent : Js.value) : looked_up :=
  match property_key B agent with
  | None => Missing
  | Some k =>
      match own k AGENT_NODE_MAP with
      | Some id => Own id
      | None =>
          if existsb (String.eqb k) object_prototype
          then Inherited else Missing
      end
  end.

Definition classList_remove (id : string) (cl : list string) : list string :=
  filter (fun x => negb (x =? id)) cl.

Definition classList_add (id : string) (cl : list string) : list string :=
  if existsb (String.eqb id) cl then cl else cl ++ [id].

Definition unmark_previous (f : flow_state) : list string :=
  match prevAgentNode f with
  | Some p => classList_remove p (active f)
  | None => active f
  end.

(** [Flow.highlight(agent)].  For an inherited property the selector
    built from it is not a valid selector and [querySelector] raises. *)
Definition highlight (B : Js.builtins) (agent : Js.value)
  : page -> outcome page :=
  fun p =>
    let f := flow p in
    match lookup B agent with
    | Missing => Done p
    | Own id =>
        match svg f with
        | None => Done p
        | Some ids =>
            let cleared := unmark_previous f in
            if existsb (String.eqb id) ids
            then Done (set_flow {| svg := svg f;
                                   active := classList_add id cleared;
                                   prevAgentNode := Some id |} p)
            else Done (set_flow {| svg := svg f;
                                   active := cleared;
                                   prevAgentNode := prevAgentNode f |} p)
        end
    | Inherited =>
        match svg f with
        | None => Done p
        | Some _ =>
            Thrown SyntaxError
              (set_flow {| svg := svg f;
                           active := unmark_previous f;
                           prevAgentNode := prevAgentNode f |} p)
        end
    end.

End Flow.

(* ================================================================== *)
(** * frontend/js/ui.js                                                 *)
(* ================================================================== *)

Module UI.
Import Dom.

(** The methods of the object literal [UI]. *)
Inductive method : Type :=
| enableTooltips
| showSpinner
| hideSpinner
| updateCostChart
| showToast
| clearToasts
| logout.

Definition table : list (string * method) :=
  [ ("enableTooltips", enableTooltips);
    ("showSpinner", showSpinner);
    ("hideSpinner", hideSpinner);
    ("updateCostChart", updateCostChart);
    ("showToast", showToast);
    ("clearToasts", clearToasts);
    ("logout", logout) ].

Fixpoint lookup (name : string) (t : list (string * method)) : option method :=
  match t with
  | [] => None
  | (n, m) :: rest => if n =? name then Some m else lookup name rest
  end.

Definition arg (i : nat) (dflt : Js.template) (args : list Js.template)
  : Js.template :=
  nth i args dflt.

(** The body of each method, on the modelled part of the page.  Tooltips,
    spinners and the logout redirect act on parts of the document and of
    the browser that [page] does not hold. *)
Definition run (m : method) (args : list Js.template) : page -> outcome page :=
  fun p =>
    match m with
    | showToast =>
        Done (set_toasts
                [ {| toast_message := arg 0 [Js.Hole Js.Undefined] args;
                     toast_type := arg 1 [Js.Lit "info"] args |} ] p)
    | clearToasts => Done (set_toasts [] p)
    | updateCostChart =>
        match costChart p with
        | None => Done p
        | Some _ =>
            (* window.costChart.update(..): CostChart has no such method *)
            match Chart.lookup_method "update" with
            | Some _ => Done p
            | None => Thrown TypeError p
            end
        end
    | enableTooltips | showSpinner | hideSpinner | logout => Done p
    end.

(** [UI.name(args)]: calling a property the object does not have raises
    a TypeError. *)
Definition call (name : string) (args : list Js.template)
  : page -> outcome page :=
  match lookup name table with
  | Some m => run m args
  | None => fun p => Thrown TypeError p
  end.

End UI.

(* ================================================================== *)
(** * frontend/js/api.js                                                *)
(* ================================================================== *)

Module API.

Record response : Type := {
  status : nat;
  body : Js.value    (* the parsed JSON body *)
}.

Inductive http_method : Type := GET | POST.

Record request : Type := {
  req_method : http_method;
  req_url : string;
  req_body : Js.value
}.

(** What the network answers; [None] is a failed fetch. *)
Definition network := request -> option response.

(** [res.ok] *)
Definition ok (r : response) : bool :=
  ((200 <=? status r) && (status r <=? 299))%nat.

Definition _json (r : response) : Js.value + error :=
  if ok r then inl (body r) else inr (HttpError (status r)).

Definition fetch_json (net : network) (rq : request) : Js.value + error :=
  match net rq with
  | None => inr TypeError
  | Some r => _json r
  end.


Definition getHistory (net : network) (loc : Config.location)
  : Js.value + error :=
  fetch_json net {| req_method := GET;
                    req_url := Config.history loc;
                    req_body := Js.Undefined |}.

Definition archiveDownloadUrl (loc : Config.location) (id : N) : string :=
  Config.dl loc id.

End API.

(* ================================================================== *)
(** * frontend/js/history.js                                            *)
(* ================================================================== *)

Module History.
Import Dom.

(** A history item as documented above [renderHistoryTable]:
    [id] (archive id), [filename] (ZIP file name), [created_at]
    (ISO date string). *)
Record item : Type := {
  id : N;
  filename : string;
  created_at : string
}.

Definition render_row (loc : Config.location) (it : item) : history_row :=
  let downloadUrl := API.archiveDownloadUrl loc (id it) in
  {| cell_id := id it;
     link_href := downloadUrl;
     link_download := filename it;
     link_text := filename it;
     cell_created_at := created_at it |}.

(** The three header cells (ID, file name, creation time; the source
    labels the last two in Japanese). *)
Definition header : list string := ["ID"; "file name"; "created"].

Definition renderHistoryTable (loc : Config.location) (data : list item)
           (p : page) : page :=
  match history_container p with
  | None => p     (* console.warn, return *)
  | Some _ =>
      set_history
        (Some [ {| table_class := "table table-striped";
                   thead := header;
                   tbody := map (render_row loc) data |} ]) p
  end.



End History.

(* ================================================================== *)
(** * costProgressApp.js                                                *)
(* ================================================================== *)

Module CostProgress.

Record props : Type := {
  workflowId : Js.number;
  maxCost : Js.number
}.

(** [computed(() => props.maxCost > 0
      ? Math.min(100, (currentCost.value / props.maxCost) * 100) : 0)] *)
Definition fillPercentage (currentCost maxCost : Js.number) : Js.number :=
  if Js.gt maxCost Js.pos_zero
  then Js.math_min Js.hundred (Js.mul (Js.div currentCost maxCost) Js.hundred)
  else Js.pos_zero.

(** [socket.onmessage]: a [cost_update] message with a numeric
    [total_cost] replaces the current cost; [None] is a payload that does
    not parse. *)
Definition onmessage (data : option Js.value) (currentCost : Js.number)
  : Js.number :=
  match data with
  | None => currentCost
  | Some msg =>
      if Js.nullish msg then currentCost
      else
        match Js.get msg "type", Js.get msg "total_cost" with
        | Js.Str t, Js.Num c => if t =? "cost_update" then c else currentCost
        | _, _ => currentCost
        end
  end.

(** The mount guard of the [DOMContentLoaded] handler. *)
Definition mountable (workflowId maxCost : Js.number) : bool :=
  Js.is_finite workflowId && Js.gt workflowId Js.pos_zero
  && Js.is_finite maxCost && Js.gt maxCost Js.pos_zero.

End CostProgress.

(* ================================================================== *)
(** * frontend/js/ws.js                                                 *)
(* ================================================================== *)

Module WSClient.
Import Dom.

(** What the constructor's [chartRef] can be in this repository:
    main.js passes nothing, and the only chart class is [CostChart]. *)
Inductive chart_ref : Type :=
| RefUndefined
| RefChart (c : Chart.CostChart).

(** A [WSClient].  A WebSocket is identified by the [retry] argument of
    the [_connect] call that created it; a pending [setTimeout] by its
    delay in milliseconds and the argument of the [_connect] it will call.
    [connects], [handled] and [closes] are history: the arguments of all
    calls of [_connect] and of [_handle] so far, oldest first, and the
    number of [onclose] handlers that have run. *)
Record client : Type := {
  url : Js.template;
  chart : chart_ref;
  sockets : list nat;
  timers : list (Z * nat);
  connects : list nat;
  handled : list Js.value;
  closes : nat
}.

Record world : Type := {
  pg : page;
  cl : client
}.

Definition on_page (f : page -> outcome page) : world -> outcome world :=
  fun w =>
    match f (pg w) with
    | Done p => Done {| pg := p; cl := cl w |}
    | Thrown e p => Thrown e {| pg := p; cl := cl w |}
    end.

Definition assign (f : page -> page) : world -> outcome world :=
  fun w => Done {| pg := f (pg w); cl := cl w |}.

Definition with_chart (r : chart_ref) (w : world) : world :=
  {| pg := pg w;
     cl := {| url := url (cl w);
              chart := r;
              sockets := sockets (cl w);
              timers := timers (cl w);
              connects := connects (cl w);
              handled := handled (cl w);
              closes := closes (cl w) |} |}.

(** [this.chart.name(args)]: the method is looked up on the receiver. *)
Definition chart_call (name : string) (args : list Js.value)
  : world -> outcome world :=
  fun w =>
    match chart (cl w) with
    | RefUndefined => Thrown TypeError w
    | RefChart c =>
        match Chart.lookup_method name with
        | None => Thrown TypeError w
        | Some Chart.MAdd =>
            Done (with_chart
                    (RefChart (Chart.add (nth 0 args Js.Undefined)
                                         (nth 1 args Js.Undefined) c)) w)
        | Some Chart.MReset => Done (with_chart (RefChart (Chart.reset c)) w)
        end
    end.

(** The number the cost section computes:
    [Number(msg.output_data?.cost_used || msg.output_data?.cost)]. *)
Definition cost_of (B : Js.builtins) (msg : Js.value) : Js.number :=
  let od := Js.get msg "output_data" in
  Js.to_number B (Js.or_else (Js.get_opt od "cost_used")
                             (Js.get_opt od "cost")).

Definition log_entry (msg : Js.value) : Js.template :=
  [ Js.Lit "<strong>"; Js.Hole (Js.get msg "step_name");
    Js.Lit "</strong><pre class='mb-0'>";
    Js.Stringified (Js.get msg "output_data"); Js.Lit "</pre>" ].

Definition interaction_entry (msg : Js.value) : Js.template :=
  [ Js.Hole (Js.get msg "from_agent"); Js.Lit " -> ";
    Js.Hole (Js.get msg "to_agent") ].

Definition download_href (msg : Js.value) : Js.template :=
  [ Js.Hole Config.apiBase; Js.Lit "/logs/download/";
    Js.Hole (Js.get msg "archive_id") ].

(** [_handle(msg)] *)
Definition _handle (B : Js.builtins) (msg : Js.value)
  : world -> outcome world :=
  if Js.nullish msg then fun w => Thrown TypeError w
  else if Js.truthy (Js.get msg "archive_id") then
    assign (set_download (download_href msg) false)
  else
    when (Js.truthy (Js.get msg "current_agent"))
         (assign (set_currentAgent (Js.get msg "current_agent")) ;;
          on_page (Flow.highlight B (Js.get msg "current_agent"))) ;;
    when (Js.truthy (Js.get msg "step_name"))
         (assign (set_currentPhase (Js.get msg "step_name"))) ;;
    when (Js.truthy (Js.get msg "step_name"))
         (on_page (UI.call "appendUL" [[Js.Lit "logList"]; log_entry msg])) ;;
    when (Js.truthy (Js.get msg "from_agent"))
         (on_page (UI.call "appendUL"
                     [[Js.Lit "agentInteractionList"];
                      interaction_entry msg])) ;;
    try_catch
      (let cost := Js.Num (cost_of B msg) in
       when (Js.truthy cost)
            (chart_call "push" [Js.get msg "step_name"; cost])).

Definition note_handled (msg : Js.value) (w : world) : world :=
  {| pg := pg w;
     cl := {| url := url (cl w);
              chart := chart (cl w);
              sockets := sockets (cl w);
              timers := timers (cl w);
              connects := connects (cl w);
              handled := handled (cl w) ++ [msg];
              closes := closes (cl w) |} |}.

(** [_connect(retry)]: a new WebSocket with its three handlers. *)
Definition _connect (retry : nat) (c : client) : client :=
  {| url := url c;
     chart := chart c;
     sockets := sockets c ++ [retry];
     timers := timers c;
     connects := connects c ++ [retry];
     handled := handled c;
     closes := closes c |}.

(** [new WSClient(workflowId, chartRef)] *)
Definition constructor (workflowId : Js.value) (chartRef : chart_ref)
  : client :=
  _connect 0
    {| url := [ Js.Hole Config.wsBase; Js.Lit "/projects/workflow/ws/";
                Js.Hole workflowId ];
       chart := chartRef;
       sockets := [];
       timers := [];
       connects := [];
       handled := [];
       closes := 0 |}.


Fixpoint remove_first {A : Type} (eqb : A -> A -> bool) (x : A) (l : list A)
  : list A :=
  match l with
  | [] => []
  | y :: rest => if eqb x y then rest else y :: remove_first eqb x rest
  end.

Definition timer_eqb (a b : Z * nat) : bool :=
  (fst a =? fst b)%Z && (snd a =? snd b)%nat.

(** [2 ** retry * 1000], an integer that binary64 holds exactly for every
    [retry] that reaches it (0 to 4). *)
Definition backoff (retry : nat) : Z := (2 ^ Z.of_nat retry * 1000)%Z.

Definition reconnect_failed : Js.template :=
  [Js.Lit "WebSocket reconnect failed"].

(** [ws.onclose] of the socket made by [_connect(retry)]. *)
Definition onclose (retry : nat) (w : world) : world :=
  let c := cl w in
  let closed := remove_first Nat.eqb retry (sockets c) in
  if (retry <? 5)%nat then
    {| pg := pg w;
       cl := {| url := url c;
                chart := chart c;
                sockets := closed;
                timers := timers c ++ [(backoff retry, S retry)];
                connects := connects c;
                handled := handled c;
                closes := S (closes c) |} |}
  else
    final (on_page (UI.call "toast" [reconnect_failed; [Js.Lit "warning"]])
             {| pg := pg w;
                cl := {| url := url c;
                         chart := chart c;
                         sockets := closed;
                         timers := timers c;
                         connects := connects c;
                         handled := handled c;
                         closes := S (closes c) |} |}).

(** [ws.onopen] *)
Definition onopen (w : world) : world :=
  final (on_page (UI.call "toggleSpinner" [[Js.Hole (Js.Bool false)]]) w).

(** [ws.onmessage]: [None] is a payload [JSON.parse] rejects. *)
Definition onmessage (B : Js.builtins) (data : option Js.value) (w : world)
  : world :=
  match data with
  | None => w
  | Some msg => final (_handle B msg (note_handled msg w))
  end.

(** What the browser can deliver to a client. *)
Inductive event : Type :=
| Opened (retry : nat)
| Message (retry : nat) (data : option Js.value)
| Closed (retry : nat)
| TimerFired (delay : Z) (retry : nat).

Definition has_socket (retry : nat) (w : world) : bool :=
  existsb (Nat.eqb retry) (sockets (cl w)).

Definition has_timer (t : Z * nat) (w : world) : bool :=
  existsb (timer_eqb t) (timers (cl w)).

Definition fire (t : Z * nat) (w : world) : world :=
  let c := cl w in
  {| pg := pg w;
     cl := _connect (snd t)
             {| url := url c;
                chart := chart c;
                sockets := sockets c;
                timers := remove_first timer_eqb t (timers c);
                connects := connects c;
                handled := handled c;
                closes := closes c |} |}.

(** One event; events of a socket that is not open and of a timer that
    is not pending do not occur and are ignored. *)
Definition step (B : Js.builtins) (e : event) (w : world) : world :=
  match e with
  | Opened r => if has_socket r w then onopen w else w
  | Message r data => if has_socket r w then onmessage B data w else w
  | Closed r => if has_socket r w then onclose r w else w
  | TimerFired d r => if has_timer (d, r) w then fire (d, r) w else w
  end.

Definition run (B : Js.builtins) (es : list event) (w : world) : world :=
  fold_left (fun acc e => step B e acc) es w.

(** [_handle] over a whole stream, exceptions not propagating from one
    message to the next (each runs in its own event handler). *)
Definition handle_all (B : Js.builtins) (msgs : list Js.value) (w : world)
  : world :=
  fold_left (fun acc m => final (_handle B m acc)) msgs w.

(** The displayed fields that [_handle] assigns. *)
Record display : Type := {
  shown_agent : Js.value;
  shown_phase : Js.value;
  shown_href : Js.template;
  shown_hidden : bool
}.

Definition display_of (w : world) : display :=
  {| shown_agent := currentAgent (pg w);
     shown_phase := currentPhase (pg w);
     shown_href := downloadLink_href (pg w);
     shown_hidden := download_section_hidden (pg w) |}.

(** What one message assigns to the displayed fields, read off [_handle]
    branch by branch: an archive message sets the link and unhides its
    section; any other message sets the agent when it names one, and the
    phase when it names one, unless [Flow.highlight] raised in between
    (an agent name inherited from [Object.prototype], with a diagram on the
    page). *)
Record writes : Type := {
  new_agent : option Js.value;
  new_phase : option Js.value;
  new_download : option (Js.template * bool)
}.

Definition no_writes : writes :=
  {| new_agent := None; new_phase := None; new_download := None |}.

Definition highlight_raises (B : Js.builtins) (diagram : bool)
           (agent : Js.value) : bool :=
  match Flow.lookup B agent with
  | Flow.Inherited => diagram
  | _ => false
  end.

Definition writes_of (B : Js.builtins) (diagram : bool) (msg : Js.value)
  : writes :=
  if Js.nullish msg then no_writes
  else if Js.truthy (Js.get msg "archive_id") then
    {| new_agent := None;
       new_phase := None;
       new_download := Some (download_href msg, false) |}
  else
    let agent := Js.get msg "current_agent" in
    let step := Js.get msg "step_name" in
    {| new_agent := if Js.truthy agent then Some agent else None;
       new_phase :=
         if Js.truthy agent && highlight_raises B diagram agent then None
         else if Js.truthy step then Some step else None;
       new_download := None |}.

Definition override {A : Type} (o : option A) (old : A) : A :=
  match o with
  | Some v => v
  | None => old
  end.

Definition apply_writes (ws : writes) (d : display) : display :=
  {| shown_agent := override (new_agent ws) (shown_agent d);
     shown_phase := override (new_phase ws) (shown_phase d);
     shown_href := override (option_map fst (new_download ws)) (shown_href d);
     shown_hidden :=
       override (option_map snd (new_download ws)) (shown_hidden d) |}.

Definition has_diagram (w : world) : bool :=
  match svg (flow (pg w)) with
  | Some _ => true
  | None => false
  end.

(** The life of a client's connection: a socket open after [n]
    reconnections, a reconnection pending after the close of that socket, or
    given up. *)
Definition connected (n : nat) (c : client) : Prop :=
  sockets c = [n] /\ timers c = [] /\
  connects c = List.seq 0 (S n) /\ closes c = n /\ n <= 5.

Definition waiting (n : nat) (c : client) : Prop :=
  sockets c = [] /\ timers c = [(backoff n, S n)] /\
  connects c = List.seq 0 (S n) /\ closes c = S n /\ n < 5.

Definition given_up (c : client) : Prop :=
  sockets c = [] /\ timers c = [] /\
  connects c = List.seq 0 6 /\ closes c = 6.

Definition lifecycle (c : client) : Prop :=
  (exists n, connected n c) \/ (exists n, waiting n c) \/ given_up c.

(** Reconnections made so far: calls of [_connect] beyond the
    constructor's. *)
Definition reconnections (c : client) : nat := pred (List.length (connects c)).

End WSClient.

(* ================================================================== *)
(** * frontend/js/main.js: the start button                             *)
(* ================================================================== *)

Module Main.
Import Dom.



Definition payload (trim : string -> string) (project requirement : string)
  : Js.value :=
  Js.Obj [ ("project_name", Js.Str (trim project));
           ("requirement", Js.Str (trim requirement)) ].



End Main.

(* ================================================================== *)
(** * db/init_db.bat: the workflow_logs table                           *)
(* ================================================================== *)

Module Db.

(** [ADD COLUMN IF NOT EXISTS max_loops INTEGER NOT NULL DEFAULT 3] *)
Definition max_loops_default : Z := 3.

(** A row of [workflow_logs] without its blob and timestamp:
    [id SERIAL PRIMARY KEY], [project_name] and [requirement] NOT NULL,
    [model] and [max_cost DOUBLE PRECISION] nullable, [max_loops]. *)
Record workflow_log : Type := {
  id : N;
  project_name : string;
  requirement : string;
  model : option string;
  max_cost : option Js.number;
  max_loops : Z
}.

(** The table with the sequence behind its SERIAL key. *)
Record table : Type := {
  rows : list workflow_log;
  next_id : N
}.

Definition empty : table := {| rows := []; next_id := 1 |}.

(** The columns an INSERT names; a column left out takes its default. *)
Record insert_values : Type := {
  ins_project_name : string;
  ins_requirement : string;
  ins_model : option string;
  ins_max_cost : option Js.number;
  ins_max_loops : option Z
}.

Definition or_default (given : option Z) (dflt : Z) : Z :=
  match given with
  | Some z => z
  | None => dflt
  end.

(** [INSERT ... RETURNING id] *)
Definition insert (v : insert_values) (t : table) : N * table :=
  let row := {| id := next_id t;
                project_name := ins_project_name v;
                requirement := ins_requirement v;
                model := ins_model v;
                max_cost := ins_max_cost v;
                max_loops :=
                  or_default (ins_max_loops v) max_loops_default |} in
  (next_id t, {| rows := rows t ++ [row]; next_id := N.succ (next_id t) |}).

Definition find (i : N) (t : table) : option workflow_log :=
  List.find (fun r => (id r =? i)%N) (rows t).


End Db.

(* ================================================================== *)
(** * The back end, from the specification                              *)
(* ================================================================== *)

Module Backend.

(** Modelled from the spec: the submit endpoint (section 6, "Submit
    workflow"), whose handler is not among the sources.  A request
    carries [project_name] and [requirement], optionally [model],
    [budget_cap] and [max_loops]; the answer is [{workflow_id}]. *)
Record submit_request : Type := {
  sr_project_name : string;
  sr_requirement : string;
  sr_model : option string;
  sr_budget_cap : option Js.number;
  sr_max_loops : option Z
}.

(** Modelled from the spec: the JSON number that carries an identifier. *)
Definition number_of_N (n : N) : Js.number :=
  binary_normalize Js.prec Js.emax (Z.of_N n) 0 false.



(** Modelled from the spec: the submit operation.  It creates the run
    (a [workflow_logs] row, whose [max_loops] column defaults as the
    table declares) and answers with the new identifier. *)
Definition submit (r : submit_request) (t : Db.table)
  : API.response * Db.table :=
  let '(wid, t') :=
    Db.insert {| Db.ins_project_name := sr_project_name r;
                 Db.ins_requirement := sr_requirement r;
                 Db.ins_model := sr_model r;
                 Db.ins_max_cost := sr_budget_cap r;
                 Db.ins_max_loops := sr_max_loops r |} t in
  ({| API.status := 200;
      API.body := Js.Obj [("workflow_id", Js.Num (number_of_N wid))] |}, t').



(* ---------------------------------------------------------------- *)
(** ** Cost ledger (section 4.2)                                      *)

(** Modelled from the spec: monetary amounts, non-negative, in
    millionths of a dollar. *)
Definition amount := N.

(** Modelled from the spec: the ledger of one workflow, append-only
    deltas; [current_total] is their fold. *)
Definition ledger := list amount.

(** Modelled from the spec: [current_total], "always a pure fold" of the
    deltas. *)
Definition current_total (l : ledger) : amount :=
  fold_left N.add l 0%N.

(** Modelled from the spec: the two answers of [reserve], Ok and
    BudgetExceeded. *)
Inductive reservation : Type :=
| Granted
| Refused.

(** Modelled from the spec: [reserve], the advisory check made before an
    agent is invoked; no cap means no limit. *)
Definition reserve (cap : option amount) (l : ledger) (a : amount)
  : reservation :=
  match cap with
  | None => Granted
  | Some c => if (c <? current_total l + a)%N then Refused else Granted
  end.

(** Modelled from the spec: [commit] appends a delta. *)
Definition commit (a : amount) (l : ledger) : ledger := l ++ [a].

(* ---------------------------------------------------------------- *)
(** ** Workflow state machine (section 4.3)                           *)

(** Modelled from the spec: the kinds of [AgentError] (section 4.1). *)
Inductive agent_error : Type :=
| Transport
| TimedOut
| Validation.

(** Modelled from the spec: the reasons a workflow fails for
    (section 7): three distinct, named reasons. *)
Inductive reason : Type :=
| AgentFailure (k : agent_error)
| BudgetExceeded
| RetryBudgetExhausted.

(** Modelled from the spec: the phases of section 4.3. *)
Inductive phase : Type :=
| Intake
| StakeholderRefine
| DbDesign
| UiGeneration
| CodeGeneration
| QA
| Security
| Patch
| Archiving
| Succeeded
| Failed (r : reason)
| Cancelled.

(** Modelled from the spec: the terminal phases, in which a workflow is
    immutable. *)
Definition terminal (p : phase) : bool :=
  match p with
  | Succeeded | Failed _ | Cancelled => true
  | _ => false
  end.

(** Modelled from the spec: phases carried out by an agent; intake and
    archiving are the orchestrator's own. *)
Definition agent_phase (p : phase) : bool :=
  match p with
  | StakeholderRefine | DbDesign | UiGeneration | CodeGeneration
  | QA | Security | Patch => true
  | _ => false
  end.



(** Modelled from the spec: the strictly sequential successor. *)
Definition successor (p : phase) : phase :=
  match p with
  | Intake => StakeholderRefine
  | StakeholderRefine => DbDesign
  | DbDesign => UiGeneration
  | UiGeneration => CodeGeneration
  | CodeGeneration => QA
  | QA => Security
  | Security => Archiving
  | Patch => CodeGeneration
  | Archiving => Succeeded
  | other => other
  end.

(** Modelled from the spec: a persisted step: sequence number, step name,
    cost incurred and error, if any (section 3). *)
Record step_record : Type := {
  sequence_number : nat;
  step_name : phase;
  cost_incurred : amount;
  step_error : option reason
}.

(** Modelled from the spec: a workflow run.  [invoked] is the history
    of agent invocations, oldest first. *)
Record workflow : Type := {
  max_loops : nat;
  budget_cap : option amount;
  current : phase;
  loop_count : nat;
  spent : ledger;
  steps : list step_record;
  invoked : list phase;
  archives : nat
}.

(** Modelled from the spec: a workflow at creation: intake ahead, nothing
    spent, counter at 0. *)
Definition created (loops : nat) (cap : option amount) : workflow :=
  {| max_loops := loops;
     budget_cap := cap;
     current := Intake;
     loop_count := 0;
     spent := [];
     steps := [];
     invoked := [];
     archives := 0 |}.

(** Modelled from the spec: what an agent reports; only the quality gates
    can send control back. *)
Inductive verdict : Type :=
| Pass
| Findings.

(** Modelled from the spec: the outcome of [invoke] on the agent client:
    output with its cost, or an [AgentError] that outlived the client's own
    retries. *)
Inductive agent_result : Type :=
| Returned (cost : amount) (v : verdict)
| Errored (k : agent_error).    (* after the client's own retries *)

(** Modelled from the spec: what meets the orchestrator at a phase boundary:
    a cancel request, or the go-ahead with the next step's estimated cost
    and what the agent would answer if invoked. *)
Inductive stimulus : Type :=
| CancelRequested
| Proceed (estimate : amount) (result : agent_result).

(** Modelled from the spec: [appendStep], with the next sequence number. *)
Definition persist (p : phase) (c : amount) (e : option reason)
           (l : list step_record) : list step_record :=
  l ++ [ {| sequence_number := List.length l;
            step_name := p;
            cost_incurred := c;
            step_error := e |} ].

(** Modelled from the spec: the workflow ends: a terminal step is persisted. *)
Definition finish (final_phase : phase) (e : option reason) (w : workflow)
  : workflow :=
  {| max_loops := max_loops w;
     budget_cap := budget_cap w;
     current := final_phase;
     loop_count := loop_count w;
     spent := spent w;
     steps := persist (current w) 0%N e (steps w);
     invoked := invoked w;
     archives := archives w |}.

(** Modelled from the spec: a quality gate reported findings.  "If the
    Loop Counter would exceed max_loops, the workflow transitions to
    Failed with reason RetryBudgetExhausted instead of looping again";
    otherwise the counter increments and control returns to code
    generation by way of the patch phase. *)
Definition gate_failed (c : amount) (w : workflow) : workflow :=
  if (loop_count w <? max_loops w)%nat then
    {| max_loops := max_loops w;
       budget_cap := budget_cap w;
       current := Patch;
       loop_count := S (loop_count w);
       spent := commit c (spent w);
       steps := persist (current w) c None (steps w);
       invoked := invoked w ++ [current w];
       archives := archives w |}
  else
    {| max_loops := max_loops w;
       budget_cap := budget_cap w;
       current := Failed RetryBudgetExhausted;
       loop_count := loop_count w;
       spent := commit c (spent w);
       steps := persist (current w) c (Some RetryBudgetExhausted) (steps w);
       invoked := invoked w ++ [current w];
       archives := archives w |}.

(** Modelled from the spec: the quality gates, QA and Security. *)
Definition is_gate (p : phase) : bool :=
  match p with QA | Security => true | _ => false end.

(** Modelled from the spec: the agent of the current phase was invoked and
    answered. *)
Definition invoke (r : agent_result) (w : workflow) : workflow :=
  match r with
  | Errored k =>
      {| max_loops := max_loops w;
         budget_cap := budget_cap w;
         current := Failed (AgentFailure k);
         loop_count := loop_count w;
         spent := spent w;
         steps := persist (current w) 0%N (Some (AgentFailure k)) (steps w);
         invoked := invoked w ++ [current w];
         archives := archives w |}
  | Returned c Findings =>
      if is_gate (current w) then gate_failed c w
      else
        {| max_loops := max_loops w;
           budget_cap := budget_cap w;
           current := successor (current w);
           loop_count := loop_count w;
           spent := commit c (spent w);
           steps := persist (current w) c None (steps w);
           invoked := invoked w ++ [current w];
           archives := archives w |}
  | Returned c Pass =>
      {| max_loops := max_loops w;
         budget_cap := budget_cap w;
         current := successor (current w);
         loop_count := loop_count w;
         spent := commit c (spent w);
         steps := persist (current w) c None (steps w);
         invoked := invoked w ++ [current w];
         archives := archives w |}
  end.

(** Modelled from the spec: one phase transition of the orchestrator.
    Terminal workflows are immutable; a cancel request is honoured at the
    boundary; an agent phase first reserves its estimated cost and fails
    with [BudgetExceeded], agent uninvoked, when the reservation is
    refused. *)
Definition advance (s : stimulus) (w : workflow) : workflow :=
  if terminal (current w) then w
  else
    match s with
    | CancelRequested => finish Cancelled None w
    | Proceed estimate result =>
        match current w with
        | Intake =>
            {| max_loops := max_loops w;
               budget_cap := budget_cap w;
               current := StakeholderRefine;
               loop_count := loop_count w;
               spent := spent w;
               steps := persist Intake 0%N None (steps w);
               invoked := invoked w;
               archives := archives w |}
        | Archiving =>
            {| max_loops := max_loops w;
               budget_cap := budget_cap w;
               current := Succeeded;
               loop_count := loop_count w;
               spent := spent w;
               steps := persist Archiving 0%N None (steps w);
               invoked := invoked w;
               archives := S (archives w) |}
        | _ =>
            match reserve (budget_cap w) (spent w) estimate with
            | Refused => finish (Failed BudgetExceeded) (Some BudgetExceeded) w
            | Granted => invoke result w
            end
        end
    end.

(** Modelled from the spec: a workflow driven through a series of phase
    boundaries. *)
Definition run (ss : list stimulus) (w : workflow) : workflow :=
  fold_left (fun acc s => advance s acc) ss w.




(** Modelled from the spec: a boundary at which nothing goes wrong but,
    possibly, the verdict: no cancel, estimate and cost [c], and the agent
    answers with [v] (only the quality gates look at the verdict). *)
Definition gate_says (c : amount) (v : verdict) : stimulus :=
  Proceed c (Returned c v).


(* ---------------------------------------------------------------- *)
(** ** Streaming hub (section 4.4)                                    *)

(** Modelled from the spec: a stream event: the sequence number of its
    step, whether it is terminal, and the JSON sent to subscribers. *)
Record event : Type := {
  sequence : nat;
  is_terminal : bool;      (* Succeeded, Failed or Cancelled *)
  payload : Js.value       (* the JSON sent to subscribers *)
}.

(** Modelled from the spec: the hub of one workflow is its persisted
    event log in sequence order; subscribers read it. *)
Record hub : Type := {
  log : list event
}.

(** Modelled from the spec: the stream is closed once the last event of
    the log is a terminal one. *)
Definition closed (h : hub) : bool :=
  match rev (log h) with
  | e :: _ => is_terminal e
  | [] => false
  end.

(** Modelled from the spec: the JSON number that carries a sequence number. *)
Definition number_of_nat (n : nat) : Js.number :=
  binary_normalize Js.prec Js.emax (Z.of_nat n) 0 false.

(** Modelled from the spec: [publish].  The event takes the next
    sequence number; once the log ends in a terminal event the stream is
    closed and nothing more is published. *)
Definition publish (term : bool) (body : Js.value) (h : hub) : hub :=
  if closed h then h
  else
    let n := List.length (log h) in
    {| log := log h ++
              [ {| sequence := n;
                   is_terminal := term;
                   payload := Js.set body "sequence"
                                (Js.Num (number_of_nat n)) |} ] |}.

(** Modelled from the spec: [subscribe], "restartable from sequence 0",
    and "replay from sequence N". *)
Definition replay_from (n : nat) (h : hub) : list event := skipn n (log h).

(** Modelled from the spec: [subscribe], a subscription from the start. *)
Definition subscribe (h : hub) : list event := replay_from 0 h.

(* ---------------------------------------------------------------- *)
(** ** The hub and one browser client                                 *)

(** Modelled from the spec: [cursor] is the position in the log of the next
    event the hub will send on the client's open connection. *)
Record system : Type := {
  the_hub : hub;
  browser : WSClient.world;
  cursor : nat
}.

(** Modelled from the spec: what can happen between hub and client. *)
Inductive action : Type :=
| Publish (term : bool) (body : Js.value)
| Deliver          (* the hub sends the next event of the log *)
| Disconnect       (* the connection closes: hub after a terminal event,
                      or network *)
| Reconnect.       (* the client's pending timer fires *)

(** Modelled from the spec: the client's URL names the workflow only, so
    every connection is a subscription from sequence 0. *)
Definition act (B : Js.builtins) (a : action) (s : system) : system :=
  match a with
  | Publish term body =>
      {| the_hub := publish term body (the_hub s);
         browser := browser s;
         cursor := cursor s |}
  | Deliver =>
      match WSClient.sockets (WSClient.cl (browser s)),
            nth_error (log (the_hub s)) (cursor s) with
      | r :: _, Some e =>
          {| the_hub := the_hub s;
             browser := WSClient.step B
                          (WSClient.Message r (Some (payload e))) (browser s);
             cursor := S (cursor s) |}
      | _, _ => s
      end
  | Disconnect =>
      match WSClient.sockets (WSClient.cl (browser s)) with
      | r :: _ =>
          {| the_hub := the_hub s;
             browser := WSClient.step B (WSClient.Closed r) (browser s);
             cursor := cursor s |}
      | [] => s
      end
  | Reconnect =>
      match WSClient.timers (WSClient.cl (browser s)) with
      | (d, r) :: _ =>
          {| the_hub := the_hub s;
             browser := WSClient.step B (WSClient.TimerFired d r) (browser s);
             cursor := 0 |}
      | [] => s
      end
  end.

(** Modelled from the spec: a series of actions. *)
Definition play (B : Js.builtins) (acts : list action) (s : system) : system :=
  fold_left (fun acc a => act B a acc) acts s.

End Backend.

(* ================================================================== *)
(** * Sample data                                                       *)
(* ================================================================== *)

Module Sample.
Import Dom.

Definition location : Config.location :=
  {| Config.protocol := "http:";
     Config.hostname := "localhost";
     Config.host := "localhost:8081" |}.

Definition items : list History.item :=
  [ {| History.id := 7; History.filename := "todo.zip";
       History.created_at := "2025-05-01T10:00:00Z" |};
    {| History.id := 12; History.filename := "shop.zip";
       History.created_at := "2025-05-02T09:30:00Z" |} ].

(** No diagram rendered (mermaid absent). *)
Definition no_diagram : flow_state :=
  {| svg := None; active := []; prevAgentNode := None |}.

(** An engine whose string conversions are trivial; none of the sample
    messages holds a numeric string or an array. *)
Definition engine : Js.builtins :=
  {| Js.StringToNumber := fun _ => Js.NaN;
     Js.ArrayToString := fun _ => EmptyString |}.

Definition page0 : page := built no_diagram.

(** The client main.js creates: no chart passed. *)
Definition world0 : WSClient.world :=
  {| WSClient.pg := page0;
     WSClient.cl :=
       WSClient.constructor (Js.Num Js.one) WSClient.RefUndefined |}.

(** A client that was given a fresh [CostChart]. *)
Definition charted : WSClient.world :=
  {| WSClient.pg := page0;
     WSClient.cl :=
       WSClient.constructor (Js.Num Js.one)
                            (WSClient.RefChart Chart.fresh) |}.

(** 0.5 *)
Definition half : Js.number := S754_finite false (2 ^ 52) (-53).

(** [{sequence: 1, step_name: "QA", output_data: {cost: 0.5}}] *)
Definition qa_cost_event : Js.value :=
  Js.Obj [ ("sequence", Js.Num Js.one);
           ("step_name", Js.Str "QA");
           ("output_data", Js.Obj [("cost", Js.Num half)]) ].

(** [{output_data: {cost_used: 0.5}}] *)
Definition bare_cost_event : Js.value :=
  Js.Obj [ ("output_data", Js.Obj [("cost_used", Js.Num half)]) ].

(** Five closes, each but the last followed by its timer. *)
Definition five_closes : list WSClient.event :=
  [ WSClient.Closed 0; WSClient.TimerFired 1000 1;
    WSClient.Closed 1; WSClient.TimerFired 2000 2;
    WSClient.Closed 2; WSClient.TimerFired 4000 3;
    WSClient.Closed 3; WSClient.TimerFired 8000 4;
    WSClient.Closed 4 ].

Definition six_closes : list WSClient.event :=
  five_closes ++ [ WSClient.TimerFired 16000 5; WSClient.Closed 5 ].

Definition after_five_closes : WSClient.world :=
  WSClient.run engine five_closes world0.

Definition after_six_closes : WSClient.world :=
  WSClient.run engine six_closes world0.

(** Two progress events as the orchestrator hands them to the hub. *)
Definition qa_running : Js.value :=
  Js.Obj [ ("current_agent", Js.Str "QA") ].

Definition security_running : Js.value :=
  Js.Obj [ ("current_agent", Js.Str "Security") ].

Definition finished : Js.value :=
  Js.Obj [ ("archive_id", Js.Num Js.one) ].

(** The same two events as the client receives them, numbered 0 and 1. *)
Definition qa_event : Js.value :=
  Js.Obj [ ("sequence", Js.Num Js.pos_zero); ("current_agent", Js.Str "QA") ].

Definition security_event : Js.value :=
  Js.Obj [ ("sequence", Js.Num Js.one);
           ("current_agent", Js.Str "Security") ].

(** Both events arrive, the socket closes, the client reconnects after one
    second, and event 0 arrives again on the new socket. *)
Definition reconnect_and_replay : list WSClient.event :=
  [ WSClient.Message 0 (Some qa_event);
    WSClient.Message 0 (Some security_event);
    WSClient.Closed 0;
    WSClient.TimerFired 1000 1;
    WSClient.Message 1 (Some qa_event) ].


Definition replayed : WSClient.world :=
  WSClient.run engine reconnect_and_replay world0.

Definition empty_hub : Backend.hub := {| Backend.log := [] |}.

(** A running workflow with two events published, and its browser client
    just connected. *)
Definition running : Backend.system :=
  {| Backend.the_hub :=
       Backend.publish false security_running
         (Backend.publish false qa_running empty_hub);
     Backend.browser := world0;
     Backend.cursor := 0 |}.


(** The same workflow once its terminal event is out and delivered. *)
Definition ended : Backend.system :=
  Backend.play engine
    [ Backend.Deliver; Backend.Deliver;
      Backend.Publish true finished; Backend.Deliver ]
    running.

Definition dime : Backend.amount := 100000%N.

Definition go : Backend.stimulus := Backend.gate_says dime Backend.Pass.




(** Section 8's scenario with a budget of 0.01: intake done, the next
    step is estimated at 0.05. *)
Definition after_intake : Backend.workflow :=
  Backend.advance go (Backend.created 3 (Some 10000%N)).

End Sample.

(* ================================================================== *)
(** * frontend/js/flow.js: the highlighted node                         *)
(* ================================================================== *)

Module FlowState.
Import Dom.

(** At most one element carries the class [activeAgent], and it is the one
    [window._prevAgentNode] remembers.  A freshly rendered diagram, with no
    element highlighted, is in this state. *)
Definition tidy (f : flow_state) : Prop :=
  match active f with
  | [] => True
  | [x] => prevAgentNode f = Some x
  | _ :: _ :: _ => False
  end.

End FlowState.

(* ================================================================== *)
(** * frontend/js/ws.js: what the client leaves alone                   *)
(* ================================================================== *)

Module Frame.
Import Dom.

(** Two pages that agree on everything ws.js has no assignment for: the
    two lists, the toasts, the history table, the visibility of the
    containers, [window.costChart] and the elements of the diagram.  The
    agent and phase texts, the download link with its section and the
    highlight may differ. *)
Definition same_rest (p q : page) : Prop :=
  logList p = logList q /\
  agentInteractionList p = agentInteractionList q /\
  toasts p = toasts q /\
  history_container p = history_container q /\
  app_display p = app_display q /\
  login_display p = login_display q /\
  costChart p = costChart q /\
  svg (flow p) = svg (flow q).

End Frame.

(* ================================================================== *)
(** * frontend/js/main.js: the history refresh button                   *)
(* ================================================================== *)

Module Refresh.
Import Dom.



End Refresh.

(* ================================================================== *)
(** * costProgressApp.js: mounting and the message stream               *)
(* ================================================================== *)

Module CostProgressApp.

(** [ref(0)] *)
Definition initial_cost : Js.number := Js.pos_zero.

(** The current cost after the payloads of a stream of WebSocket messages,
    oldest first. *)
Definition run_messages (stream : list (option Js.value)) (c0 : Js.number)
  : Js.number :=
  fold_left (fun c data => CostProgress.onmessage data c) stream c0.

(** [#cost-progress-app] with its two data attributes; an attribute that
    is absent reads as [undefined]. *)
Record mount_point : Type := {
  data_workflow_id : option string;
  data_max_cost : option string
}.

(** [window.__CURRENT_WORKFLOW_ID__] and [window.__CURRENT_MAX_COST__] *)
Record globals : Type := {
  CURRENT_WORKFLOW_ID : Js.value;
  CURRENT_MAX_COST : Js.value
}.

Definition attribute (a : option string) : Js.value :=
  match a with
  | Some s => Js.Str s
  | None => Js.Undefined
  end.

(** [let n = Number(attr); if (!Number.isFinite(n)) n = Number(global)] *)
Definition resolve (B : Js.builtins) (a : option string) (global : Js.value)
  : Js.number :=
  let n := Js.to_number B (attribute a) in
  if Js.is_finite n then n else Js.to_number B global.

(** The test before mounting, as the source words it:
    [!Number.isFinite(workflowId) || workflowId <= 0 ||
     !Number.isFinite(maxCost) || maxCost <= 0]. *)
Definition rejected (workflowId maxCost : Js.number) : bool :=
  negb (Js.is_finite workflowId) || Js.le workflowId Js.pos_zero
  || negb (Js.is_finite maxCost) || Js.le maxCost Js.pos_zero.

(** The [DOMContentLoaded] handler: the props the component is mounted
    with, or [None] when nothing is mounted. *)
Definition mount (B : Js.builtins) (mountEl : option mount_point)
           (g : globals) : option CostProgress.props :=
  match mountEl with
  | None => None
  | Some el =>
      let workflowId := resolve B (data_workflow_id el) (CURRENT_WORKFLOW_ID g) in
      let maxCost := resolve B (data_max_cost el) (CURRENT_MAX_COST g) in
      if rejected workflowId maxCost then None
      else Some {| CostProgress.workflowId := workflowId;
                   CostProgress.maxCost := maxCost |}
  end.

(** [onMounted]: the URL of the WebSocket it opens, or [None] when it
    returns without opening one. *)
Definition socket_url (loc : Config.location) (p : CostProgress.props)
  : option Js.template :=
  if negb (Js.is_finite (CostProgress.workflowId p))
     || Js.le (CostProgress.workflowId p) Js.pos_zero
  then None
  else
    let protocol :=
      if Config.protocol loc =? "https:" then "wss" else "ws" in
    Some [ Js.Lit protocol; Js.Lit "://"; Js.Lit (Config.host loc);
           Js.Lit "/api/cost/ws/";
           Js.Hole (Js.Num (CostProgress.workflowId p)) ].

(** A payload that, if it is a [cost_update], does not report a negative
    total. *)
Definition reports_nonneg (data : option Js.value) : Prop :=
  match data with
  | None => True
  | Some msg =>
      Js.get msg "type" = Js.Str "cost_update" ->
      forall c, Js.get msg "total_cost" = Js.Num c ->
                Js.ge c Js.pos_zero = true
  end.

End CostProgressApp.

(* ================================================================== *)
(** * frontend/js/file_upload.js                                        *)
(* ================================================================== *)

Module FileUpload.
Import Dom.

(** A file chosen in [#fileInput]. *)
Record file : Type := {
  file_name : string
}.

(** [#fileInput] and [#uploadList], the page (for the toasts), and as
    history the [FormData] of every request sent so far. *)
Record form : Type := {
  files : list file;               (* inp.files *)
  uploadList : list Js.template;   (* <li> children of #uploadList *)
  document : page;
  posted : list (list file)
}.

(** What the network answers to an upload; [None] is a failed fetch. *)
Definition network := list file -> option API.response.

(** [API.uploadFiles(fd)] *)
Definition uploadFiles (net : network) (fd : list file) : Js.value + error :=
  match net fd with
  | None => inr TypeError
  | Some r => API._json r
  end.

Definition entry (f : Js.value) : Js.template :=
  [ Js.Lit "<li class='list-group-item'><a href='"; Js.Hole (Js.get f "url");
    Js.Lit "' target='_blank'>"; Js.Hole (Js.get f "name");
    Js.Lit "</a></li>" ].

(** [uploaded.map(f => `..${f.url}..${f.name}..`)]: only an array has
    [map], and reading a property of [null] raises. *)
Definition entries (uploaded : Js.value) : option (list Js.template) :=
  match uploaded with
  | Js.Arr xs => if existsb Js.nullish xs then None else Some (map entry xs)
  | _ => None
  end.

Definition on_ui (f : page -> outcome page) : form -> outcome form :=
  fun s =>
    match f (document s) with
    | Done p => Done {| files := files s; uploadList := uploadList s;
                        document := p; posted := posted s |}
    | Thrown e p => Thrown e {| files := files s; uploadList := uploadList s;
                                document := p; posted := posted s |}
    end.

Definition upload_succeeded : Js.template := [Js.Lit "upload succeeded"].
Definition choose_a_file : Js.template := [Js.Lit "choose a file"].

(** The [try] block of the submit handler. *)
Definition try_block (net : network) : form -> outcome form :=
  fun s =>
    let fd := files s in
    let sent := {| files := files s; uploadList := uploadList s;
                   document := document s; posted := posted s ++ [fd] |} in
    match uploadFiles net fd with
    | inr e => Thrown e sent
    | inl res =>
        if Js.nullish res then Thrown TypeError sent
        else
          match entries (Js.get res "uploaded") with
          | None => Thrown TypeError sent
          | Some lis =>
              on_ui (UI.call "toast" [upload_succeeded; [Js.Lit "success"]])
                    {| files := [];             (* inp.value = '' *)
                       uploadList := lis;
                       document := document s;
                       posted := posted s ++ [fd] |}
          end
    end.

(** The submit handler of [#uploadForm].  [describe] is [e.message], which
    for the engine's own errors is worded by the engine. *)
Definition onSubmit (describe : error -> string) (net : network)
  : form -> outcome form :=
  fun s =>
    match files s with
    | [] => on_ui (UI.call "showErrorToast" [choose_a_file]) s
    | _ :: _ =>
        match try_block net s with
        | Done s' => Done s'
        | Thrown e s' =>
            on_ui (UI.call "showErrorToast"
                     [[Js.Lit "upload failed: "; Js.Lit (describe e)]]) s'
        end
    end.

(** The click handler of [#clearFilesBtn]. *)
Definition onClear (s : form) : form :=
  {| files := []; uploadList := [];
     document := document s; posted := posted s |}.

End FileUpload.

(* ================================================================== *)
(** * frontend/js/auth.js                                               *)
(* ================================================================== *)

Module Auth.
Import Dom.

(** The texts [#errorMessage] can show (in Japanese in the source). *)
Inductive notice : Type :=
| NoNotice              (* '' *)
| EnterCredentials      (* asks for e-mail address and password *)
| LoginFailed           (* login failed: check the credentials *)
| ProfileError          (* the user information could not be fetched *)
| CommunicationError.   (* communication error, try again *)

(** An answer of the server to [fetch]; [answer_json] is [None] when the
    body is not JSON. *)
Record answer : Type := {
  answer_status : nat;
  answer_json : option Js.value
}.

(** [res.ok] *)
Definition ok (r : answer) : bool :=
  ((200 <=? answer_status r) && (answer_status r <=? 299))%nat.

(** What the server answers to the login request with the given user name
    and password, and to the profile request that follows it; [None] is a
    failed fetch. *)
Record network : Type := {
  login : string -> string -> option answer;
  profile : option answer
}.

Inductive request : Type :=
| LoginRequest (username password : string)
| ProfileRequest.

(** The login form, the containers auth.js holds, and the page.
    [requests] is history: the login and profile requests sent so far. *)
Record state : Type := {
  errorMessage : notice;           (* #errorMessage.textContent *)
  submit_disabled : bool;          (* submitButton.disabled *)
  listening : bool;                (* is onLoginSubmit registered on the form *)
  welcome_header : option Js.template;   (* #welcome-header.textContent *)
  login_container : bool;          (* is #login-container in the document *)
  app_dnone : bool;                (* #app has class d-none *)
  current_user : Js.value;         (* window.__CURRENT_USER__ *)
  document : page;
  requests : list request
}.

Definition set_notice (n : notice) (s : state) : state :=
  {| errorMessage := n;
     submit_disabled := submit_disabled s;
     listening := listening s;
     welcome_header := welcome_header s;
     login_container := login_container s;
     app_dnone := app_dnone s;
     current_user := current_user s;
     document := document s;
     requests := requests s |}.

Definition set_disabled (b : bool) (s : state) : state :=
  {| errorMessage := errorMessage s;
     submit_disabled := b;
     listening := listening s;
     welcome_header := welcome_header s;
     login_container := login_container s;
     app_dnone := app_dnone s;
     current_user := current_user s;
     document := document s;
     requests := requests s |}.

Definition set_listening (b : bool) (s : state) : state :=
  {| errorMessage := errorMessage s;
     submit_disabled := submit_disabled s;
     listening := b;
     welcome_header := welcome_header s;
     login_container := login_container s;
     app_dnone := app_dnone s;
     current_user := current_user s;
     document := document s;
     requests := requests s |}.

Definition set_document (p : page) (s : state) : state :=
  {| errorMessage := errorMessage s;
     submit_disabled := submit_disabled s;
     listening := listening s;
     welcome_header := welcome_header s;
     login_container := login_container s;
     app_dnone := app_dnone s;
     current_user := current_user s;
     document := p;
     requests := requests s |}.

Definition sent (r : request) (s : state) : state :=
  {| errorMessage := errorMessage s;
     submit_disabled := submit_disabled s;
     listening := listening s;
     welcome_header := welcome_header s;
     login_container := login_container s;
     app_dnone := app_dnone s;
     current_user := current_user s;
     document := document s;
     requests := requests s ++ [r] |}.

(** Steps 1 to 3 of [initApp]: the login screen leaves the document, the
    application is shown, the user is kept in a global. *)
Definition reveal (user : Js.value) (s : state) : state :=
  {| errorMessage := errorMessage s;
     submit_disabled := submit_disabled s;
     listening := listening s;
     welcome_header := welcome_header s;
     login_container := false;
     app_dnone := false;
     current_user := user;
     document := document s;
     requests := requests s |}.

(** The text of the header ("welcome, .. " in Japanese in the source). *)
Definition welcome (user : Js.value) : Js.template :=
  [ Js.Lit "welcome, "; Js.Hole (Js.get user "username") ].

Definition greet (user : Js.value) (s : state) : state :=
  {| errorMessage := errorMessage s;
     submit_disabled := submit_disabled s;
     listening := listening s;
     welcome_header := Some (welcome user);
     login_container := login_container s;
     app_dnone := app_dnone s;
     current_user := current_user s;
     document := document s;
     requests := requests s |}.

Definition on_document (f : page -> outcome page) : state -> outcome state :=
  fun s =>
    match f (document s) with
    | Done p => Done (set_document p s)
    | Thrown e p => Thrown e (set_document p s)
    end.

(** [initApp(user)].  [modules] stands for steps 5 and 6, the calls into
    main.js, ui.js, chart.js, flow.js, file_upload.js and history.js, which
    build and fill the page and can raise. *)
Definition initApp (modules : Js.value -> page -> outcome page)
           (user : Js.value) : state -> outcome state :=
  fun s =>
    match welcome_header s with
    | Some _ => Done s
    | None =>
        if Js.nullish user
        then Thrown TypeError (reveal user s)      (* user.username *)
        else on_document (modules user) (greet user (reveal user s))
    end.

(** [(formData.get(name) || '').toString().trim()]; a field the form
    lacks reads as [null]. *)
Definition field (trim : string -> string) (v : option string) : string :=
  trim (match v with Some s => s | None => EmptyString end).

Definition login_succeeded : Js.template := [Js.Lit "login succeeded"].

(** [profileJson.data ?? profileJson] *)
Definition user_of (profileJson : Js.value) : Js.value :=
  if Js.nullish (Js.get profileJson "data") then profileJson
  else Js.get profileJson "data".

(** The [try] block of [onLoginSubmit]; a [return] inside it ends it
    normally. *)
Definition try_block (modules : Js.value -> page -> outcome page)
           (net : network) (username password : string)
  : state -> outcome state :=
  fun s =>
    let s1 := sent (LoginRequest username password) s in
    match login net username password with
    | None => Thrown TypeError s1
    | Some loginRes =>
        if negb (ok loginRes) then Done (set_notice LoginFailed s1)
        else
          let s2 := sent ProfileRequest s1 in
          match profile net with
          | None => Thrown TypeError s2
          | Some profileRes =>
              if negb (ok profileRes) then Done (set_notice ProfileError s2)
              else
                match answer_json profileRes with
                | None => Thrown SyntaxError s2
                | Some profileJson =>
                    if Js.nullish profileJson then Thrown TypeError s2
                    else
                      (on_document
                         (UI.call "showToast"
                            [login_succeeded; [Js.Lit "success"]]) ;;
                       initApp modules (user_of profileJson) ;;
                       (fun s => Done (set_listening false s))) s2
                end
          end
    end.

(** [onLoginSubmit(event)] *)
Definition onLoginSubmit (trim : string -> string)
           (modules : Js.value -> page -> outcome page) (net : network)
           (username password : option string) (s : state) : state :=
  let s0 := set_disabled true (set_notice NoNotice s) in
  let u := field trim username in
  let p := field trim password in
  if (u =? EmptyString) || (p =? EmptyString)
  then set_disabled false (set_notice EnterCredentials s0)
  else
    set_disabled false
      match try_block modules net u p s0 with
      | Done s' => s'
      | Thrown _ s' => set_notice CommunicationError s'
      end.

End Auth.

(* ================================================================== *)
(** * More sample data                                                  *)
(* ================================================================== *)

Module Fixture.
Import Dom.

(** The diagram of flow.js once mermaid has rendered it, nothing
    highlighted yet. *)
Definition diagram : flow_state :=
  {| svg := Some ["DBD"; "UI"; "CODE"; "QA"; "SEC"; "PATCH"];
     active := [];
     prevAgentNode := None |}.

Definition page1 : page := built diagram.

Definition world1 : WSClient.world :=
  {| WSClient.pg := page1;
     WSClient.cl :=
       WSClient.constructor (Js.Num Js.one) WSClient.RefUndefined |}.

(** [{current_agent: "QA", step_name: "QA"}] *)
Definition qa_step : Js.value :=
  Js.Obj [ ("current_agent", Js.Str "QA"); ("step_name", Js.Str "QA") ].

(** [#cost-progress-app] without data attributes, and globals that hold
    the workflow id 1 with a maximal cost of 100, or of 1. *)
Definition bare_mount_point : CostProgressApp.mount_point :=
  {| CostProgressApp.data_workflow_id := None;
     CostProgressApp.data_max_cost := None |}.

Definition cost_globals : CostProgressApp.globals :=
  {| CostProgressApp.CURRENT_WORKFLOW_ID := Js.Num Js.one;
     CostProgressApp.CURRENT_MAX_COST := Js.Num Js.hundred |}.

Definition unit_globals : CostProgressApp.globals :=
  {| CostProgressApp.CURRENT_WORKFLOW_ID := Js.Num Js.one;
     CostProgressApp.CURRENT_MAX_COST := Js.Num Js.one |}.

(** [{type: "cost_update", total_cost: 4}] *)
Definition cost_update : Js.value :=
  Js.Obj [ ("type", Js.Str "cost_update");
           ("total_cost", Js.Num (S754_finite false (2 ^ 52) (-50))) ].





Definition describe : error -> string := fun _ => "error".

(** The login screen as index.html shows it, and a server that accepts
    the credentials and answers the profile request with
    [{data: {username: "alice"}}]. *)
Definition login_screen : Auth.state :=
  {| Auth.errorMessage := Auth.NoNotice;
     Auth.submit_disabled := false;
     Auth.listening := true;
     Auth.welcome_header := None;
     Auth.login_container := true;
     Auth.app_dnone := true;
     Auth.current_user := Js.Undefined;
     Auth.document := Sample.page0;
     Auth.requests := [] |}.

Definition alice : Js.value := Js.Obj [ ("username", Js.Str "alice") ].

Definition server : Auth.network :=
  {| Auth.login := fun _ _ => Some {| Auth.answer_status := 200;
                                     Auth.answer_json := None |};
     Auth.profile := Some {| Auth.answer_status := 200;
                             Auth.answer_json :=
                               Some (Js.Obj [ ("data", alice) ]) |} |}.

(** Modules that build the main pane and do not raise. *)
Definition modules : Js.value -> page -> outcome page :=
  fun _ p => Done (built (flow p)).

Definition no_trim : string -> string := fun s => s.

(** [{current_agent: "constructor", step_name: "QA"}] *)
Definition odd_agent : Js.value :=
  Js.Obj [ ("current_agent", Js.Str "constructor");
           ("step_name", Js.Str "QA") ].

End Fixture.

(* ================================================================== *)
(** * Theorems                                                          *)
(* ================================================================== *)

Module ChartFacts.
Import Chart.

Lemma apply_balanced (o : op) (c : CostChart) :
  balanced c -> balanced (apply o c).
Proof.
  unfold balanced; destruct o as [l v|]; simpl; intros H.
  - rewrite !List.length_app, H; reflexivity.
  - reflexivity.
Qed.

Lemma run_balanced (ops : list op) :
  forall c, balanced c -> balanced (run ops c).
Proof.
  unfold run.
  induction ops as [|o ops IH]; intros c H; simpl.
  - exact H.
  - apply IH, apply_balanced, H.
Qed.

(** C9.  Every [CostChart] instance, that is the chart the constructor
    builds followed by any sequence of [add] and [reset], has as many
    labels as data points.  The constructor leaves both lists empty;
    [add] appends exactly one label and one value behind the ones already
    stored, which stay as they were; [reset] empties both again. *)
Theorem costchart_labels_match_data :
  forall (cv : canvas) (ops : list op),
    (constructor cv = Some fresh \/ constructor cv = None) /\
    labels fresh = [] /\ data fresh = [] /\
    let c := run ops fresh in
    balanced c /\
    (forall l v,
        labels (add l v c) = labels c ++ [l] /\
        data (add l v c) = data c ++ [v] /\
        balanced (add l v c)) /\
    labels (reset c) = [] /\ data (reset c) = [] /\ balanced (reset c).
Proof.
  intros cv ops.
  split.
  { unfold constructor; destruct (context2d cv); auto. }
  split; [reflexivity|]. split; [reflexivity|].
  assert (Hc : balanced (run ops fresh))
    by (apply run_balanced; reflexivity).
  cbv zeta. split; [exact Hc|]. split.
  - intros l v. split; [reflexivity|]. split; [reflexivity|].
    exact (apply_balanced (OpAdd l v) _ Hc).
  - repeat split.
Qed.

End ChartFacts.

Lemma string_app_assoc (a b c : string) :
  ((a ++ b) ++ c)%string = (a ++ (b ++ c))%string.
Proof.
  induction a as [|x a IH]; simpl; [reflexivity | rewrite IH; reflexivity].
Qed.

Module HistoryFacts.
Import Dom History.


(** [buildMain] puts the container in place before [loadHistory] runs. *)
Lemma built_has_container (f : flow_state) :
  history_container (built f) = Some [].
Proof. reflexivity. Qed.



Example history_second_link :
  option_map (fun t => map link_href (tbody t))
    (option_map
       (hd {| table_class := EmptyString; thead := []; tbody := [] |})
       (history_container
          (renderHistoryTable Sample.location Sample.items
             (built Sample.no_diagram))))
  = Some [ "http://localhost:5000/api/logs/download/7";
           "http://localhost:5000/api/logs/download/12" ].
Proof. reflexivity. Qed.

End HistoryFacts.

(* ------------------------------------------------------------------ *)
(** ** binary64 arithmetic on non-negative operands                     *)

Module NumberFacts.
Import Js.

Lemma ge_zero_nonneg (x : Js.number) :
  Js.ge x Js.pos_zero = true <-> nonneg x.
Proof.
  unfold Js.ge, Js.pos_zero, SFleb, nonneg.
  destruct x as [s|s| |s m e]; simpl; try destruct s; simpl;
    intuition congruence.
Qed.

Lemma gt_zero_positive (x : Js.number) :
  Js.gt x Js.pos_zero = true <->
  x = S754_infinity false \/ exists m e, x = S754_finite false m e.
Proof.
  unfold Js.gt, Js.pos_zero, SFltb.
  destruct x as [s|s| |s m e]; simpl; try destruct s; simpl; split;
    try congruence; try (intros [H|[m' [e' H]]]; congruence);
    intros _; eauto.
Qed.

Section Rounding.
Variables prec emax : Z.

Lemma shr_1_nonneg (mrs : shr_record) :
  (0 <= shr_m mrs)%Z -> (0 <= shr_m (shr_1 mrs))%Z.
Proof.
  destruct mrs as [m r s]; simpl.
  destruct m as [|p|p]; simpl; intros H; try lia.
  destruct p; simpl; lia.
Qed.

Lemma iter_shr_1_nonneg (n : positive) :
  forall mrs, (0 <= shr_m mrs)%Z -> (0 <= shr_m (iter_pos shr_1 n mrs))%Z.
Proof.
  induction n as [n IH|n IH|]; intros mrs H; simpl.
  - apply IH, IH, shr_1_nonneg, H.
  - apply IH, IH, H.
  - apply shr_1_nonneg, H.
Qed.

Lemma shr_nonneg (mrs : shr_record) (e n : Z) :
  (0 <= shr_m mrs)%Z -> (0 <= shr_m (fst (shr mrs e n)))%Z.
Proof.
  intros H; unfold shr; destruct n; simpl; auto.
  apply iter_shr_1_nonneg, H.
Qed.

Lemma shr_record_of_loc_m (m : Z) (l : location) :
  shr_m (shr_record_of_loc m l) = m.
Proof. destruct l as [|[| |]]; reflexivity. Qed.

Lemma shr_fexp_nonneg (m e : Z) (l : location) :
  (0 <= m)%Z -> (0 <= shr_m (fst (shr_fexp prec emax m e l)))%Z.
Proof.
  intros H; unfold shr_fexp; apply shr_nonneg.
  rewrite shr_record_of_loc_m; exact H.
Qed.

Lemma round_nearest_even_nonneg (m : Z) (l : location) :
  (0 <= m)%Z -> (0 <= round_nearest_even m l)%Z.
Proof.
  intros H; unfold round_nearest_even.
  destruct l as [|[| |]]; try destruct (Z.even m); lia.
Qed.

Lemma binary_round_aux_nonneg (mx ex : Z) (lx : location) :
  (0 <= mx)%Z -> nonneg (binary_round_aux prec emax false mx ex lx).
Proof.
  intros H; unfold binary_round_aux.
  pose proof (shr_fexp_nonneg mx ex lx H) as H1.
  destruct (shr_fexp prec emax mx ex lx) as [mrs' e']; simpl in H1.
  pose proof (shr_fexp_nonneg
                (round_nearest_even (shr_m mrs') (loc_of_shr_record mrs'))
                e' loc_Exact
                (round_nearest_even_nonneg _ _ H1)) as H2.
  destruct (shr_fexp prec emax _ e' loc_Exact) as [mrs'' e'']; simpl in H2.
  destruct (shr_m mrs'') as [|p|p]; simpl; auto; try lia.
  destruct (e'' <=? emax - prec)%Z; reflexivity.
Qed.

Lemma div_core_nonneg (mx my : positive) (ex ey : Z) :
  (0 <= fst (fst (SFdiv_core_binary prec emax (Zpos mx) ex (Zpos my) ey)))%Z.
Proof.
  unfold SFdiv_core_binary.
  set (s := (ex - ey - _)%Z).
  set (m' := match s with Zpos _ => _ | Z0 => _ | Zneg _ => _ end).
  assert (Hm : (0 <= m')%Z).
  { subst m'; destruct s; try lia. apply Z.shiftl_nonneg; lia. }
  pose proof (Z.div_pos m' (Zpos my) Hm ltac:(lia)) as Hq.
  unfold Z.div in Hq.
  destruct (Z.div_eucl m' (Zpos my)) as [q r]; simpl in *; exact Hq.
Qed.

Lemma SFdiv_nonneg (x y : spec_float) :
  nonneg x ->
  (y = S754_infinity false \/ exists m e, y = S754_finite false m e) ->
  ~ (x = S754_infinity false /\ y = S754_infinity false) ->
  nonneg (SFdiv prec emax x y).
Proof.
  intros Hx [Hy|[m [e Hy]]] Hinf; subst y.
  - destruct x as [s|s| |s mx exx]; simpl in *; auto; subst.
    exfalso; apply Hinf; auto.
  - destruct x as [s|s| |s mx exx]; simpl in *; auto; subst; auto.
    pose proof (div_core_nonneg mx m exx e) as H.
    destruct (SFdiv_core_binary prec emax (Zpos mx) exx (Zpos m) e)
      as [[mz ez] lz]; simpl in H.
    apply binary_round_aux_nonneg, H.
Qed.

Lemma SFmul_nonneg (x : spec_float) (m : positive) (e : Z) :
  nonneg x -> nonneg (SFmul prec emax x (S754_finite false m e)).
Proof.
  intros Hx; destruct x as [s|s| |s mx exx]; simpl in *; auto; subst; auto.
  apply binary_round_aux_nonneg; lia.
Qed.

End Rounding.

Lemma min_hundred_bounds (p : Js.number) :
  nonneg p ->
  nonneg (Js.math_min Js.hundred p) /\
  Js.le (Js.math_min Js.hundred p) Js.hundred = true.
Proof.
  intros Hp.
  assert (Hh : Js.le Js.hundred Js.hundred = true) by reflexivity.
  unfold Js.math_min, Js.hundred in *.
  destruct p as [s|s| |s m e]; simpl in Hp; try contradiction; subst.
  - (* a zero: smaller than 100 *)
    simpl. split; [exact I | reflexivity].
  - (* +Infinity: 100 is the minimum *)
    simpl. split; [reflexivity | exact Hh].
  - destruct (SFltb _ _) eqn:Hlt.
    + split; [reflexivity|].
      unfold Js.le, SFleb. unfold SFltb in Hlt.
      destruct (SFcompare _ _) as [[| |]|]; congruence.
    + split; [reflexivity | exact Hh].
Qed.

End NumberFacts.

Module CostProgressFacts.
Import CostProgress.

(** The literal 50 and the literal 200, for the examples. *)
Example fill_half :
  fillPercentage Js.one (S754_finite false (2 ^ 52) (-51)) =
  S754_finite false (25 * 2 ^ 48) (-47).
Proof. vm_compute. reflexivity. Qed.

Example fill_over_budget :
  fillPercentage (S754_finite false (2 ^ 52) (-50)) Js.one = Js.hundred.
Proof. vm_compute. reflexivity. Qed.

(** C10, as stated, fails: with [currentCost] and [maxCost] both +Infinity
    (a [total_cost] of 1e999 parses to Infinity) the quotient is NaN, and so
    is the percentage, which is then neither at least 0 nor at most 100. *)
Lemma fillPercentage_infinite_costs :
  Js.ge Js.pos_infinity Js.pos_zero = true /\
  fillPercentage Js.pos_infinity Js.pos_infinity = Js.NaN /\
  Js.ge (fillPercentage Js.pos_infinity Js.pos_infinity) Js.pos_zero = false /\
  Js.le (fillPercentage Js.pos_infinity Js.pos_infinity) Js.hundred = false.
Proof. repeat split. Qed.

(** C10, amended.  For every [currentCost >= 0] and every [maxCost], unless
    both are +Infinity, [fillPercentage] lies between 0 and 100 inclusive.
    It is 0 whenever [maxCost > 0] does not hold (that is for [maxCost <= 0]
    and for NaN) and [Math.min(100, currentCost / maxCost * 100)] otherwise,
    so the bar never exceeds 100% even when the received total exceeds the
    cap. *)
Theorem fillPercentage_within_bounds :
  forall currentCost maxCost : Js.number,
    Js.ge currentCost Js.pos_zero = true ->
    ~ (currentCost = Js.pos_infinity /\ maxCost = Js.pos_infinity) ->
    Js.ge (fillPercentage currentCost maxCost) Js.pos_zero = true /\
    Js.le (fillPercentage currentCost maxCost) Js.hundred = true /\
    (Js.gt maxCost Js.pos_zero = false ->
     fillPercentage currentCost maxCost = Js.pos_zero) /\
    (Js.gt maxCost Js.pos_zero = true ->
     fillPercentage currentCost maxCost =
     Js.math_min Js.hundred
       (Js.mul (Js.div currentCost maxCost) Js.hundred)).
Proof.
  intros c m Hc Hinf.
  unfold fillPercentage.
  destruct (Js.gt m Js.pos_zero) eqn:Hm.
  - apply NumberFacts.gt_zero_positive in Hm.
    apply NumberFacts.ge_zero_nonneg in Hc.
    pose proof (NumberFacts.SFdiv_nonneg Js.prec Js.emax c m Hc Hm Hinf) as Hq.
    pose proof (NumberFacts.SFmul_nonneg Js.prec Js.emax _
                  (25 * 2 ^ 48) (-46) Hq) as Hp.
    destruct (NumberFacts.min_hundred_bounds _ Hp) as [H0 H100].
    split; [apply NumberFacts.ge_zero_nonneg; exact H0|].
    split; [exact H100|].
    split; [discriminate | reflexivity].
  - split; [reflexivity|]. split; [reflexivity|].
    split; [reflexivity | discriminate].
Qed.

Lemma fillPercentage_within_bounds_witness :
  Js.ge (S754_finite false (2 ^ 52) (-50)) Js.pos_zero = true /\
  Js.le (fillPercentage (S754_finite false (2 ^ 52) (-50)) Js.one)
        Js.hundred = true.
Proof.
  split; [reflexivity|].
  refine (proj1 (proj2 (fillPercentage_within_bounds
                          (S754_finite false (2 ^ 52) (-50)) Js.one
                          eq_refl _))).
  intros [H _]; discriminate H.
Defined.

(** The mount guard only lets a finite, positive [maxCost] through. *)
Lemma mountable_finite (wid m : Js.number) :
  mountable wid m = true -> m <> Js.pos_infinity.
Proof.
  unfold mountable; intros H Hm; subst m.
  rewrite !andb_true_iff in H; simpl in H.
  destruct H as [[[_ _] H] _]; discriminate H.
Qed.

End CostProgressFacts.

(* ------------------------------------------------------------------ *)
(** ** The WebSocket client                                             *)

Module WSClientFacts.
Import Dom WSClient.

Lemma final_seq_cl (f g : world -> outcome world) :
  (forall w, cl (final (f w)) = cl w) ->
  (forall w, cl (final (g w)) = cl w) ->
  forall w, cl (final ((f ;; g) w)) = cl w.
Proof.
  intros Hf Hg w; unfold seq.
  specialize (Hf w).
  destruct (f w) as [w'|e w']; simpl in *.
  - rewrite Hg; exact Hf.
  - exact Hf.
Qed.

Lemma final_when_cl (c : bool) (f : world -> outcome world) :
  (forall w, cl (final (f w)) = cl w) ->
  forall w, cl (final (when c f w)) = cl w.
Proof. intros Hf w; destruct c; simpl; auto. Qed.

Lemma final_try_cl (f : world -> outcome world) :
  (forall w, cl (final (f w)) = cl w) ->
  forall w, cl (final (try_catch f w)) = cl w.
Proof. intros Hf w; unfold try_catch; simpl; auto. Qed.

Lemma final_on_page_cl (f : page -> outcome page) (w : world) :
  cl (final (on_page f w)) = cl w.
Proof. unfold on_page; destruct (f (pg w)); reflexivity. Qed.

Lemma final_assign_cl (f : page -> page) (w : world) :
  cl (final (assign f w)) = cl w.
Proof. reflexivity. Qed.

(** [CostChart] has no method [push], and [undefined] has no property at
    all: the call raises and changes nothing. *)
Lemma chart_push_raises (args : list Js.value) (w : world) :
  chart_call "push" args w = Thrown TypeError w.
Proof.
  unfold chart_call; destruct (chart (cl w)); reflexivity.
Qed.

(** [UI] has none of the three helpers ws.js calls. *)
Lemma UI_lacks_helpers (args : list Js.template) (p : page) :
  UI.call "appendUL" args p = Thrown TypeError p /\
  UI.call "toast" args p = Thrown TypeError p /\
  UI.call "toggleSpinner" args p = Thrown TypeError p.
Proof. repeat split. Qed.

Ltac keep_client :=
  match goal with
  | |- forall w, cl (final ((_ ;; _) w)) = cl w => apply final_seq_cl
  | |- forall w, cl (final (when _ _ w)) = cl w => apply final_when_cl
  | |- forall w, cl (final (try_catch _ w)) = cl w => apply final_try_cl
  | |- forall w, cl (final (on_page _ w)) = cl w =>
      intro; apply final_on_page_cl
  | |- forall w, cl (final (assign _ w)) = cl w => intro; reflexivity
  | |- forall w, cl (final (chart_call "push" _ w)) = cl w =>
      intro; rewrite chart_push_raises; reflexivity
  end.

(** [_handle] leaves the client object as it is: it writes to the page
    only. *)
Lemma handle_keeps_client (B : Js.builtins) (msg : Js.value) (w : world) :
  cl (final (_handle B msg w)) = cl w.
Proof.
  unfold _handle.
  destruct (Js.nullish msg); [reflexivity|].
  destruct (Js.truthy (Js.get msg "archive_id")); [reflexivity|].
  revert w; repeat keep_client.
Qed.

Lemma onmessage_client (B : Js.builtins) (data : option Js.value) (w : world) :
  sockets (cl (onmessage B data w)) = sockets (cl w) /\
  timers (cl (onmessage B data w)) = timers (cl w) /\
  connects (cl (onmessage B data w)) = connects (cl w) /\
  closes (cl (onmessage B data w)) = closes (cl w) /\
  chart (cl (onmessage B data w)) = chart (cl w).
Proof.
  destruct data as [msg|]; simpl; [|auto].
  rewrite handle_keeps_client; simpl; auto.
Qed.

Lemma onopen_client (w : world) : cl (onopen w) = cl w.
Proof. unfold onopen; apply final_on_page_cl. Qed.

Lemma onclose_client (r : nat) (w : world) :
  cl (onclose r w) =
  {| url := url (cl w);
     chart := chart (cl w);
     sockets := remove_first Nat.eqb r (sockets (cl w));
     timers := if (r <? 5)%nat
               then timers (cl w) ++ [(backoff r, S r)]
               else timers (cl w);
     connects := connects (cl w);
     handled := handled (cl w);
     closes := S (closes (cl w)) |}.
Proof.
  unfold onclose; destruct (r <? 5)%nat; [reflexivity|].
  rewrite final_on_page_cl; reflexivity.
Qed.

Lemma lifecycle_constructor (wid : Js.value) (r : chart_ref) :
  connected 0 (constructor wid r).
Proof. unfold connected; simpl; repeat split; lia. Qed.

Lemma seq_snoc (n : nat) : List.seq 0 n ++ [n] = List.seq 0 (S n).
Proof. rewrite List.seq_S; reflexivity. Qed.

Lemma has_socket_connected (n r : nat) (w : world) :
  connected n (cl w) -> has_socket r w = true -> r = n.
Proof.
  intros [Hs _]; unfold has_socket; rewrite Hs; simpl.
  rewrite orb_false_r; intros H; apply Nat.eqb_eq in H; exact H.
Qed.

Lemma timer_eqb_eq (a b : Z * nat) : timer_eqb a b = true <-> a = b.
Proof.
  destruct a as [d r], b as [d' r']; unfold timer_eqb; simpl.
  rewrite andb_true_iff, Z.eqb_eq, Nat.eqb_eq.
  split; [intros [-> ->]; reflexivity | intros H; inversion H; auto].
Qed.

Lemma timer_eqb_refl (a : Z * nat) : timer_eqb a a = true.
Proof. apply timer_eqb_eq; reflexivity. Qed.

Lemma step_lifecycle (B : Js.builtins) (e : event) (w : world) :
  lifecycle (cl w) -> lifecycle (cl (step B e w)).
Proof.
  intros H; destruct e as [r|r data|r|d r]; simpl.
  - destruct (has_socket r w); [rewrite onopen_client|]; exact H.
  - destruct (has_socket r w) eqn:Hr; [|exact H].
    destruct (onmessage_client B data w) as (Hs & Ht & Hc & Hk & _).
    unfold lifecycle, connected, waiting, given_up in *.
    rewrite Hs, Ht, Hc, Hk; exact H.
  - destruct (has_socket r w) eqn:Hr; [|exact H].
    destruct H as [[n Hn]|[[n Hn]|Hn]].
    + pose proof (has_socket_connected n r w Hn Hr); subst r.
      destruct Hn as (Hs & Ht & Hc & Hk & Hle).
      rewrite onclose_client, Hs, Ht, Hc, Hk; simpl remove_first.
      rewrite Nat.eqb_refl.
      destruct (n <? 5)%nat eqn:Hlt.
      * apply Nat.ltb_lt in Hlt.
        right; left; exists n; unfold waiting; simpl; auto.
      * apply Nat.ltb_ge in Hlt. assert (Hn5 : n = 5) by lia.
        right; right. unfold given_up; simpl. rewrite Hn5. repeat split.
    + destruct Hn as (Hs & _); unfold has_socket in Hr; rewrite Hs in Hr.
      discriminate Hr.
    + destruct Hn as (Hs & _); unfold has_socket in Hr; rewrite Hs in Hr.
      discriminate Hr.
  - destruct (has_timer (d, r) w) eqn:Hr; [|exact H].
    destruct H as [[n Hn]|[[n Hn]|Hn]].
    + destruct Hn as (_ & Ht & _); unfold has_timer in Hr; rewrite Ht in Hr.
      discriminate Hr.
    + destruct Hn as (Hs & Ht & Hc & Hk & Hlt).
      unfold has_timer in Hr; rewrite Ht in Hr; simpl in Hr.
      rewrite orb_false_r in Hr; apply timer_eqb_eq in Hr.
      inversion Hr; subst d r.
      left; exists (S n); unfold connected, fire; simpl.
      rewrite Hs, Ht, Hc, Hk; simpl.
      rewrite timer_eqb_refl; simpl.
      repeat split; try lia.
      change (0 :: List.seq 1 n ++ [S n]) with ((0 :: List.seq 1 n) ++ [S n]).
      change (0 :: List.seq 1 n) with (List.seq 0 (S n)).
      change (0 :: 1 :: List.seq 2 n) with (List.seq 0 (S (S n))).
      apply seq_snoc.
    + destruct Hn as (_ & Ht & _); unfold has_timer in Hr; rewrite Ht in Hr.
      discriminate Hr.
Qed.

Lemma run_lifecycle (B : Js.builtins) (es : list event) :
  forall w, lifecycle (cl w) -> lifecycle (cl (run B es w)).
Proof.
  unfold run; induction es as [|e es IH]; intros w H; simpl; [exact H|].
  apply IH, step_lifecycle, H.
Qed.

Lemma given_up_is_final (B : Js.builtins) (es : list event) :
  forall w, given_up (cl w) -> run B es w = w.
Proof.
  unfold run; induction es as [|e es IH]; intros w H; simpl; [reflexivity|].
  assert (Hstep : step B e w = w).
  { destruct H as (Hs & Ht & _).
    destruct e; simpl; unfold has_socket, has_timer; rewrite ?Hs, ?Ht;
      reflexivity. }
  rewrite Hstep; apply IH, H.
Qed.

Lemma lifecycle_bounds (c : client) :
  lifecycle c -> reconnections c <= 5 /\ closes c <= 6.
Proof.
  unfold reconnections.
  intros [[n (_ & _ & Hc & Hk & Hle)]
         |[[n (_ & _ & Hc & Hk & Hlt)]|(_ & _ & Hc & Hk)]];
    rewrite Hc, List.length_seq; simpl; lia.
Qed.

Lemma lifecycle_six_closes (c : client) :
  lifecycle c -> closes c = 6 -> given_up c.
Proof.
  intros [[n (_ & _ & _ & Hk & Hle)]|[[n (_ & _ & _ & Hk & Hlt)]|H]] H6;
    try lia; exact H.
Qed.

(** C8, as stated, fails at its last clause: the fifth close finds
    [retry = 4], so a reconnection is scheduled (16 s) and a sixth
    connection is opened when the timer fires. *)
Lemma fifth_close_reconnects :
  closes (cl Sample.after_five_closes) = 5 /\
  timers (cl Sample.after_five_closes) = [(16000%Z, 5)] /\
  connects (cl Sample.after_five_closes) = [0; 1; 2; 3; 4] /\
  sockets (cl (step Sample.engine (TimerFired 16000 5)
                 Sample.after_five_closes)) = [5] /\
  connects (cl (step Sample.engine (TimerFired 16000 5)
                  Sample.after_five_closes)) = [0; 1; 2; 3; 4; 5].
Proof. vm_compute. repeat split. Qed.

(** C8, amended.  For every [WSClient], whatever the events: each close of
    a WebSocket schedules at most one reconnection, delayed by
    [2^retry * 1000] ms where [retry] is the number of reconnections already
    made; at most 5 reconnections are ever attempted; and after the sixth
    close (the close of the fifth reconnection, which finds the counter
    exhausted) no further connection is opened. *)
Theorem reconnection_is_bounded :
  forall (B : Js.builtins) (workflowId : Js.value) (chartRef : chart_ref)
         (p : page) (es : list event),
    let w := run B es {| pg := p; cl := constructor workflowId chartRef |} in
    reconnections (cl w) <= 5 /\
    closes (cl w) <= 6 /\
    (forall r,
        let w' := step B (Closed r) w in
        connects (cl w') = connects (cl w) /\
        (timers (cl w') = timers (cl w) \/
         (timers (cl w') =
            timers (cl w) ++ [((2 ^ Z.of_nat r * 1000)%Z, S r)] /\
          r = reconnections (cl w) /\ r < 5))) /\
    (closes (cl w) = 6 ->
     forall es', connects (cl (run B es' w)) = connects (cl w) /\
                 sockets (cl (run B es' w)) = [] /\
                 timers (cl (run B es' w)) = []).
Proof.
  intros B wid cref p es w.
  assert (Hl : lifecycle (cl w)).
  { apply run_lifecycle; left; exists 0; apply lifecycle_constructor. }
  destruct (lifecycle_bounds _ Hl) as [Hr Hk].
  split; [exact Hr|]. split; [exact Hk|]. split.
  - intros r w'; subst w'; simpl.
    destruct (has_socket r w) eqn:Hs; [|auto].
    rewrite onclose_client; simpl. split; [reflexivity|].
    destruct (r <? 5)%nat eqn:Hlt; [|auto].
    right. split; [reflexivity|].
    apply Nat.ltb_lt in Hlt. split; [|exact Hlt].
    destruct Hl as [[n Hn]|[[n Hn]|Hn]].
    + pose proof (has_socket_connected n r w Hn Hs); subst r.
      destruct Hn as (_ & _ & Hc & _).
      unfold reconnections; rewrite Hc, List.length_seq; reflexivity.
    + destruct Hn as (Hso & _); unfold has_socket in Hs; rewrite Hso in Hs.
      discriminate Hs.
    + destruct Hn as (Hso & _); unfold has_socket in Hs; rewrite Hso in Hs.
      discriminate Hs.
  - intros H6 es'.
    pose proof (lifecycle_six_closes _ Hl H6) as Hg.
    rewrite (given_up_is_final B es' w Hg).
    destruct Hg as (Hs & Ht & _); auto.
Qed.

Lemma reconnection_is_bounded_witness :
  closes (cl Sample.after_six_closes) = 6 /\
  connects (cl (run Sample.engine [Closed 5; TimerFired 32000 6; Opened 6]
                  Sample.after_six_closes))
  = [0; 1; 2; 3; 4; 5].
Proof.
  split; [reflexivity|].
  pose proof (reconnection_is_bounded Sample.engine (Js.Num Js.one)
                RefUndefined Sample.page0 Sample.six_closes) as H.
  cbv zeta in H.
  destruct H as (_ & _ & _ & H).
  etransitivity;
    [ exact (proj1 (H eq_refl [Closed 5; TimerFired 32000 6; Opened 6]))
    | reflexivity ].
Defined.

(** What a cost event leaves of the chart, for any chart handed to the
    client: [_handle] never changes it. *)
Lemma handle_never_plots (B : Js.builtins) (msg : Js.value) (w : world) :
  chart (cl (final (_handle B msg w))) = chart (cl w).
Proof. rewrite handle_keeps_client; reflexivity. Qed.

(** C5: the code does not do what the claim says.  A client holding a fresh
    [CostChart] receives [{sequence: 1, step_name: "QA", output_data:
    {cost: 0.5}}] and then [{output_data: {cost_used: 0.5}}].  Both report a
    cost (0.5, truthy); after both the chart still has no label and no
    point, where the claim expects the point ("QA", 0.5) and then a second
    one.  For the first message [UI.appendUL] raises before the cost
    section is reached; for the second the cost section calls
    [this.chart.push], which [CostChart] (methods [add] and [reset]) does
    not have, and the enclosing [try] swallows the TypeError. *)
Theorem cost_event_is_not_plotted :
  forall B : Js.builtins,
    Js.truthy (Js.Num (cost_of B Sample.qa_cost_event)) = true /\
    Js.truthy (Js.Num (cost_of B Sample.bare_cost_event)) = true /\
    chart (cl (onmessage B (Some Sample.qa_cost_event) Sample.charted))
    = RefChart Chart.fresh /\
    chart (cl (onmessage B (Some Sample.bare_cost_event) Sample.charted))
    = RefChart Chart.fresh /\
    raised (_handle B Sample.qa_cost_event Sample.charted) = Some TypeError /\
    raised (_handle B Sample.bare_cost_event Sample.charted) = None /\
    Chart.lookup_method "push" = None /\
    Chart.labels (Chart.add (Js.Str "QA") (Js.Num Sample.half) Chart.fresh)
    = [Js.Str "QA"].
Proof.
  intros B. repeat split.
Qed.

(* The displayed fields after one message. *)

Ltac split_cases :=
  repeat match goal with
         | |- context [match ?x with _ => _ end] => destruct x eqn:?; simpl
         | |- context [if ?x then _ else _] => destruct x eqn:?; simpl
         end.

Lemma handle_display (B : Js.builtins) (msg : Js.value) (w : world) :
  display_of (final (_handle B msg w)) =
  apply_writes (writes_of B (has_diagram w) msg) (display_of w).
Proof.
  unfold _handle, writes_of, highlight_raises, has_diagram.
  destruct (Js.nullish msg); [reflexivity|].
  destruct (Js.truthy (Js.get msg "archive_id")); [reflexivity|].
  unfold seq, when, skip, assign, on_page, try_catch, Flow.highlight; simpl.
  destruct (Js.truthy (Js.get msg "current_agent")); simpl;
    destruct (Js.truthy (Js.get msg "step_name")); simpl;
    try (destruct (Flow.lookup B (Js.get msg "current_agent")); simpl;
         destruct (svg (flow (pg w))); simpl;
         try (destruct (existsb _ _); simpl));
    try (destruct (Js.truthy (Js.get msg "from_agent")); simpl);
    split_cases; rewrite ?chart_push_raises; reflexivity.
Qed.


Lemma handle_all_app (B : Js.builtins) (a b : list Js.value) (w : world) :
  handle_all B (a ++ b) w = handle_all B b (handle_all B a w).
Proof. unfold handle_all; apply fold_left_app. Qed.













End WSClientFacts.

(* ------------------------------------------------------------------ *)
(** ** The stream between hub and client                                *)

Module StreamFacts.
Import Dom WSClient Backend.


Lemma message_handled (B : Js.builtins) (r : nat) (msg : Js.value)
      (w : world) :
  has_socket r w = true ->
  cl (WSClient.step B (Message r (Some msg)) w) =
  {| url := url (cl w);
     chart := chart (cl w);
     sockets := sockets (cl w);
     timers := timers (cl w);
     connects := connects (cl w);
     handled := handled (cl w) ++ [msg];
     closes := closes (cl w) |}.
Proof.
  intros H; simpl; rewrite H; simpl.
  rewrite WSClientFacts.handle_keeps_client; reflexivity.
Qed.

Lemma has_socket_head (r : nat) (rest : list nat) (w : world) :
  sockets (cl w) = r :: rest -> has_socket r w = true.
Proof.
  intros H; unfold has_socket; rewrite H; simpl.
  rewrite Nat.eqb_refl; reflexivity.
Qed.




(** The same through the hub: the resubscribing client is sent sequence 0
    again and applies it. *)
Example resubscription_redelivers :
  let before := play Sample.engine [Deliver; Deliver] Sample.running in
  let after := play Sample.engine [Disconnect; Reconnect; Deliver] before in
  map sequence (log (the_hub after)) = [0; 1] /\
  shown_agent (display_of (browser before)) = Js.Str "Security" /\
  handled (cl (browser after)) =
    handled (cl (browser before)) ++
    [ Js.Obj [("current_agent", Js.Str "QA");
              ("sequence", Js.Num (S754_zero false))] ] /\
  shown_agent (display_of (browser after)) = Js.Str "QA".
Proof.
  vm_compute. repeat split.
Qed.



(* After the terminal event. *)

Lemma publish_closed (term : bool) (body : Js.value) (h : hub) :
  closed h = true -> publish term body h = h.
Proof. intros H; unfold publish; rewrite H; reflexivity. Qed.

Lemma closed_last (h : hub) :
  closed h = true ->
  exists earlier last, log h = earlier ++ [last] /\ is_terminal last = true.
Proof.
  unfold closed; intros H.
  destruct (rev (log h)) as [|e rest] eqn:Hr; [discriminate|].
  exists (rev rest), e; split; [|exact H].
  rewrite <- (List.rev_involutive (log h)), Hr; reflexivity.
Qed.

Lemma act_handled (B : Js.builtins) (a : action) (s : system) :
  handled (cl (browser (act B a s))) = handled (cl (browser s)) \/
  exists e,
    a = Deliver /\
    nth_error (log (the_hub s)) (cursor s) = Some e /\
    handled (cl (browser (act B a s))) =
      handled (cl (browser s)) ++ [payload e].
Proof.
  destruct a as [term body| | |]; cbn [act].
  - left; reflexivity.
  - destruct (sockets (cl (browser s))) as [|r rest] eqn:Hs;
      [left; reflexivity|].
    destruct (nth_error (log (the_hub s)) (cursor s)) as [e|] eqn:He;
      [|left; reflexivity].
    right; exists e. split; [reflexivity|]. split; [reflexivity|].
    cbn [browser].
    rewrite (message_handled B r (payload e) (browser s)
               (has_socket_head r rest _ Hs)).
    reflexivity.
  - destruct (sockets (cl (browser s))) as [|r rest] eqn:Hs;
      [left; reflexivity|].
    left; cbn [browser WSClient.step].
    rewrite (has_socket_head r rest _ Hs), WSClientFacts.onclose_client.
    reflexivity.
  - destruct (timers (cl (browser s))) as [|[d r] rest] eqn:Ht;
      [left; reflexivity|].
    left; cbn [browser WSClient.step].
    destruct (has_timer (d, r) (browser s)); reflexivity.
Qed.

Lemma act_hub_closed (B : Js.builtins) (a : action) (s : system) :
  closed (the_hub s) = true -> the_hub (act B a s) = the_hub s.
Proof.
  intros H; destruct a as [term body| | |]; cbn [act].
  - cbn [the_hub]; apply publish_closed, H.
  - destruct (sockets _); [reflexivity|].
    destruct (nth_error _ _); reflexivity.
  - destruct (sockets _); reflexivity.
  - destruct (timers _) as [|[d r] rest]; reflexivity.
Qed.

Lemma play_closed (B : Js.builtins) (acts : list action) :
  forall s,
    closed (the_hub s) = true ->
    the_hub (play B acts s) = the_hub s /\
    exists replayed,
      handled (cl (browser (play B acts s))) =
        handled (cl (browser s)) ++ replayed /\
      Forall (fun m => In m (map payload (log (the_hub s)))) replayed.
Proof.
  unfold play; induction acts as [|a acts IH]; intros s Hc; simpl.
  - split; [reflexivity|]. exists []; rewrite List.app_nil_r; auto.
  - pose proof (act_hub_closed B a s Hc) as Hh.
    assert (Hc' : closed (the_hub (act B a s)) = true)
      by (rewrite Hh; exact Hc).
    destruct (IH _ Hc') as (Hh' & replayed & Hha & Hall).
    split; [rewrite Hh'; exact Hh|].
    rewrite Hh in Hall.
    destruct (act_handled B a s) as [Hsame|(e & _ & He & Hadd)].
    + exists replayed; rewrite Hha, Hsame; auto.
    + exists (payload e :: replayed); split.
      * rewrite Hha, Hadd, <- List.app_assoc; reflexivity.
      * constructor; [|exact Hall].
        apply List.in_map, (List.nth_error_In _ _ He).
Qed.

Lemma act_after_last (B : Js.builtins) (a : action) (s : system) :
  closed (the_hub s) = true ->
  List.length (log (the_hub s)) <= cursor s ->
  a <> Reconnect ->
  handled (cl (browser (act B a s))) = handled (cl (browser s)) /\
  cursor (act B a s) = cursor s.
Proof.
  intros Hc Hcur Ha.
  destruct (act_handled B a s) as [Hsame|(e & _ & He & _)].
  - split; [exact Hsame|].
    destruct a as [term body| | |]; cbn [act]; try reflexivity.
    + destruct (sockets _); [reflexivity|].
      destruct (nth_error _ _) as [e|] eqn:He; [|reflexivity].
      exfalso.
      assert (H : nth_error (log (the_hub s)) (cursor s) <> None) by congruence.
      apply List.nth_error_Some in H; lia.
    + destruct (sockets _); reflexivity.
    + congruence.
  - exfalso.
    assert (H : nth_error (log (the_hub s)) (cursor s) <> None) by congruence.
    apply List.nth_error_Some in H; lia.
Qed.

Lemma play_after_last (B : Js.builtins) (acts : list action) :
  forall s,
    closed (the_hub s) = true ->
    List.length (log (the_hub s)) <= cursor s ->
    Forall (fun a => a <> Reconnect) acts ->
    handled (cl (browser (play B acts s))) = handled (cl (browser s)).
Proof.
  unfold play; induction acts as [|a acts IH]; intros s Hc Hcur Hall; simpl.
  - reflexivity.
  - inversion Hall as [|a' acts' Ha Hrest]; subst.
    destruct (act_after_last B a s Hc Hcur Ha) as [Hh Hk].
    rewrite IH; [exact Hh | | | exact Hrest].
    + rewrite (act_hub_closed B a s Hc); exact Hc.
    + rewrite (act_hub_closed B a s Hc), Hk; exact Hcur.
Qed.

(** C4.  Once a terminal event is the last of the log the stream is
    closed: nothing more is ever published, so whatever happens next the log
    is the one that ends in the terminal event.  For every subscriber,
    current or future, what is left to read from any position is the rest of
    that log, ending with the terminal event, and nothing beyond it.  A
    client that has been sent the terminal event receives nothing further on
    that connection, and everything it is ever sent afterwards (it does
    reconnect) is a replay of an event already in the log, never a new
    one. *)
Theorem terminal_event_closes_stream :
  forall (B : Js.builtins) (s : system) (acts : list action),
    closed (the_hub s) = true ->
    let s' := play B acts s in
    the_hub s' = the_hub s /\
    (exists earlier last,
        subscribe (the_hub s') = earlier ++ [last] /\
        is_terminal last = true /\
        forall n, n <= List.length earlier ->
                  replay_from n (the_hub s') = skipn n earlier ++ [last]) /\
    (forall n, List.length (log (the_hub s')) <= n ->
               replay_from n (the_hub s') = []) /\
    (exists replayed,
        handled (cl (browser s')) = handled (cl (browser s)) ++ replayed /\
        Forall (fun m => In m (map payload (log (the_hub s)))) replayed) /\
    (List.length (log (the_hub s)) <= cursor s ->
     Forall (fun a => a <> Reconnect) acts ->
     handled (cl (browser s')) = handled (cl (browser s))).
Proof.
  intros B s acts Hc s'; subst s'.
  destruct (play_closed B acts s Hc) as (Hh & Hrep).
  split; [exact Hh|].
  rewrite Hh.
  split.
  { destruct (closed_last _ Hc) as (earlier & last & Hlog & Hterm).
    exists earlier, last.
    unfold subscribe, replay_from; rewrite Hlog; simpl.
    split; [reflexivity|]. split; [exact Hterm|].
    intros n Hn.
    rewrite List.skipn_app.
    replace (n - List.length earlier) with 0 by lia; reflexivity. }
  split.
  { intros n Hn; unfold replay_from; apply List.skipn_all2, Hn. }
  split; [exact Hrep|].
  intros Hcur Hall; apply play_after_last; assumption.
Qed.

Lemma terminal_event_closes_stream_witness :
  closed (the_hub Sample.ended) = true /\
  List.length (log (the_hub Sample.ended)) <= cursor Sample.ended /\
  Forall (fun a => a <> Reconnect)
         [Publish false Sample.qa_running; Deliver; Disconnect] /\
  the_hub (play Sample.engine
             [Publish false Sample.qa_running; Deliver; Disconnect]
             Sample.ended)
  = the_hub Sample.ended /\
  handled (cl (browser (play Sample.engine
                          [Publish false Sample.qa_running; Deliver; Disconnect]
                          Sample.ended)))
  = handled (cl (browser Sample.ended)).
Proof.
  assert (Hcur : List.length (log (the_hub Sample.ended))
                 <= cursor Sample.ended) by (vm_compute; lia).
  assert (Hall : Forall (fun a => a <> Reconnect)
                        [Publish false Sample.qa_running; Deliver; Disconnect])
    by (repeat constructor; discriminate).
  split; [reflexivity|]. split; [exact Hcur|]. split; [exact Hall|].
  pose proof (terminal_event_closes_stream Sample.engine Sample.ended
                [Publish false Sample.qa_running; Deliver; Disconnect]
                eq_refl) as H.
  cbv zeta in H.
  destruct H as (Hh & _ & _ & _ & Hsame).
  split; [exact Hh | exact (Hsame Hcur Hall)].
Defined.

(** After the terminal event the client of this repository does come
    back: it reconnects and applies the replayed history again. *)
Example client_replays_after_terminal :
  let s := play Sample.engine [Disconnect; Reconnect; Deliver; Deliver; Deliver]
             Sample.ended in
  List.length (handled (cl (browser Sample.ended))) = 3 /\
  List.length (handled (cl (browser s))) = 6 /\
  connects (cl (browser s)) = [0; 1].
Proof. vm_compute. repeat split. Qed.

End StreamFacts.

(* ------------------------------------------------------------------ *)
(** ** The orchestrator                                                 *)

Module OrchestratorFacts.
Import Backend.

Lemma terminal_stays (s : stimulus) (w : workflow) :
  terminal (current w) = true -> advance s w = w.
Proof. intros H; unfold advance; rewrite H; reflexivity. Qed.

Lemma terminal_run (ss : list stimulus) :
  forall w, terminal (current w) = true -> run ss w = w.
Proof.
  unfold run; induction ss as [|s ss IH]; intros w H; simpl; [reflexivity|].
  rewrite (terminal_stays s w H); apply IH, H.
Qed.









(* The quality gate finds fault every time. *)










(** C3.  When the estimated cost of the next step, an agent's, would push
    the ledger's [current_total] above [budget_cap], the reservation is
    refused and the orchestrator turns the workflow to Failed with reason
    BudgetExceeded, a reason distinct from the others; the agent is not
    invoked, nothing is committed to the ledger, and no later stimulus
    makes the workflow try again. *)
Theorem budget_refusal_is_terminal :
  forall (w : workflow) (cap estimate : amount) (result : agent_result),
    agent_phase (current w) = true ->
    budget_cap w = Some cap ->
    (cap < current_total (spent w) + estimate)%N ->
    let w' := advance (Proceed estimate result) w in
    reserve (budget_cap w) (spent w) estimate = Refused /\
    current w' = Failed BudgetExceeded /\
    invoked w' = invoked w /\
    spent w' = spent w /\
    steps w' = persist (current w) 0%N (Some BudgetExceeded) (steps w) /\
    (forall ss, run ss w' = w') /\
    BudgetExceeded <> RetryBudgetExhausted /\
    (forall k, BudgetExceeded <> AgentFailure k).
Proof.
  intros w cap est res Hp Hb Hlt w'.
  assert (Hr : reserve (budget_cap w) (spent w) est = Refused).
  { unfold reserve; rewrite Hb.
    apply N.ltb_lt in Hlt; rewrite Hlt; reflexivity. }
  assert (Hw : w' = finish (Failed BudgetExceeded) (Some BudgetExceeded) w).
  { subst w'; unfold advance.
    destruct (current w); simpl in Hp; try discriminate; simpl;
      rewrite Hr; reflexivity. }
  rewrite Hw.
  split; [exact Hr|].
  repeat split; try discriminate.
  intros ss; apply terminal_run; reflexivity.
Qed.

Lemma budget_refusal_is_terminal_witness :
  agent_phase (current Sample.after_intake) = true /\
  budget_cap Sample.after_intake = Some 10000%N /\
  (10000 < current_total (spent Sample.after_intake) + 50000)%N /\
  current (advance (Proceed 50000%N (Returned 50000%N Pass))
             Sample.after_intake)
  = Failed BudgetExceeded.
Proof.
  split; [reflexivity|]. split; [reflexivity|]. split; [reflexivity|].
  exact (proj1 (proj2 (budget_refusal_is_terminal Sample.after_intake
                         10000%N 50000%N (Returned 50000%N Pass)
                         eq_refl eq_refl eq_refl))).
Defined.

End OrchestratorFacts.

(* ------------------------------------------------------------------ *)
(** ** Submitting a workflow                                            *)

Module SubmitFacts.
Import Backend.






Example start_button_run :
  let t := snd (submit {| sr_project_name := "todo";
                          sr_requirement := "build a todo app";
                          sr_model := None;
                          sr_budget_cap := None;
                          sr_max_loops := None |} Db.empty) in
  option_map Db.max_loops (Db.find 1 t) = Some 3%Z.
Proof. reflexivity. Qed.

End SubmitFacts.
(* ------------------------------------------------------------------ *)
(** ** The cost chart: order of the points, and reset                   *)

Module ChartOrderFacts.
Import Chart.

Lemma combine_snoc {A B : Type} (la : list A) (lb : list B) (a : A) (b : B) :
  List.length la = List.length lb ->
  combine (la ++ [a]) (lb ++ [b]) = combine la lb ++ [(a, b)].
Proof.
  revert lb; induction la as [|x la IH]; intros [|y lb] H; simpl in *;
    try discriminate; [reflexivity|].
  rewrite IH by congruence; reflexivity.
Qed.

Lemma add_balanced (l v : Js.value) (c : CostChart) :
  balanced c -> balanced (add l v c).
Proof.
  unfold balanced; simpl; intros H.
  rewrite !List.length_app, H; reflexivity.
Qed.

(** X1.  The chart pairs labels and values by position, and [add] appends to
    both lists: after any number of [add] calls on a chart with as many
    labels as points, the points shown are the old ones followed by the
    (label, value) pairs of the calls, in call order, and the chart was
    redrawn once per call. *)
Theorem points_follow_adds :
  forall (pairs : list (Js.value * Js.value)) (c : CostChart),
    balanced c ->
    combine (labels (run (map (fun lv => OpAdd (fst lv) (snd lv)) pairs) c))
            (data (run (map (fun lv => OpAdd (fst lv) (snd lv)) pairs) c))
    = combine (labels c) (data c) ++ pairs /\
    updates (run (map (fun lv => OpAdd (fst lv) (snd lv)) pairs) c)
    = updates c + List.length pairs.
Proof.
  unfold run.
  induction pairs as [|[l v] pairs IH]; intros c Hc; simpl.
  - rewrite List.app_nil_r; auto.
  - destruct (IH (add l v c) (add_balanced l v c Hc)) as [H1 H2].
    rewrite H1, H2; simpl.
    rewrite combine_snoc by exact Hc.
    rewrite <- List.app_assoc; simpl. split; [reflexivity | lia].
Qed.

Lemma points_follow_adds_witness :
  balanced fresh /\
  combine
    (labels (run (map (fun lv => OpAdd (fst lv) (snd lv))
                      [(Js.Str "QA", Js.Num Sample.half);
                       (Js.Str "Patch", Js.Num Js.one)]) fresh))
    (data (run (map (fun lv => OpAdd (fst lv) (snd lv))
                    [(Js.Str "QA", Js.Num Sample.half);
                     (Js.Str "Patch", Js.Num Js.one)]) fresh))
  = [(Js.Str "QA", Js.Num Sample.half); (Js.Str "Patch", Js.Num Js.one)].
Proof.
  split; [reflexivity|].
  exact (proj1 (points_follow_adds
                  [(Js.Str "QA", Js.Num Sample.half);
                   (Js.Str "Patch", Js.Num Js.one)] fresh eq_refl)).
Defined.

Lemma run_same_content (ops : list op) :
  forall c1 c2,
    labels c1 = labels c2 -> data c1 = data c2 ->
    labels (run ops c1) = labels (run ops c2) /\
    data (run ops c1) = data (run ops c2).
Proof.
  unfold run; induction ops as [|o ops IH]; intros c1 c2 Hl Hd; simpl.
  - auto.
  - apply IH; destruct o; simpl; congruence.
Qed.

Lemma run_updates (ops : list op) :
  forall c, updates (run ops c) = updates c + List.length ops.
Proof.
  unfold run; induction ops as [|o ops IH]; intros c; simpl.
  - lia.
  - rewrite IH; destruct o; simpl; lia.
Qed.

(** X2.  [reset] forgets everything that came before it: whatever the chart held
    and whatever was done to it, after a [reset] followed by further
    operations the chart shows what a newly constructed chart would show
    after those operations alone.  Every operation, [reset] included,
    redraws the chart exactly once. *)
Theorem reset_forgets_the_past :
  forall (before after : list op) (c : CostChart),
    labels (run (before ++ OpReset :: after) c) = labels (run after fresh) /\
    data (run (before ++ OpReset :: after) c) = data (run after fresh) /\
    updates (run (before ++ OpReset :: after) c)
    = updates c + List.length before + 1 + List.length after.
Proof.
  intros before after c.
  assert (Hrun : run (before ++ OpReset :: after) c
                 = run after (reset (run before c))).
  { unfold run; rewrite fold_left_app; reflexivity. }
  rewrite Hrun.
  destruct (run_same_content after (reset (run before c)) fresh
              eq_refl eq_refl) as [Hl Hd].
  split; [exact Hl|]. split; [exact Hd|].
  rewrite run_updates; simpl. rewrite run_updates. lia.
Qed.

End ChartOrderFacts.

(* ------------------------------------------------------------------ *)
(** ** Download links                                                   *)

Module LinkFacts.

Lemma append_cancel (a b c : string) :
  (a ++ b)%string = (a ++ c)%string -> b = c.
Proof.
  induction a as [|ch a IH]; simpl; intros H; [exact H|].
  inversion H; auto.
Qed.

Lemma decimal_inj (i j : N) : Config.decimal i = Config.decimal j -> i = j.
Proof.
  unfold Config.decimal; intros H.
  apply DecimalN.Unsigned.to_uint_inj.
  pose proof (NilEmpty.usu (N.to_uint i)) as Hi.
  pose proof (NilEmpty.usu (N.to_uint j)) as Hj.
  rewrite H in Hi; congruence.
Qed.

(** X3.  Two archives have the same download URL only if they are the same
    archive: the rows of the history table, and [API.archiveDownloadUrl] in
    general, never send two different ids to one link.  This is stated for
    ids below 2^53, the integers a JavaScript number holds exactly and
    prints in plain decimal digits. *)
Theorem archive_links_are_distinct :
  forall (loc : Config.location) (i j : N),
    (i < 2 ^ 53)%N -> (j < 2 ^ 53)%N ->
    i <> j ->
    API.archiveDownloadUrl loc i <> API.archiveDownloadUrl loc j.
Proof.
  intros loc i j _ _ Hij H; apply Hij.
  unfold API.archiveDownloadUrl, Config.dl, Config.origin5000 in H.
  rewrite <- !string_app_assoc in H.
  repeat apply append_cancel in H.
  apply decimal_inj, H.
Qed.

Lemma archive_links_are_distinct_witness :
  API.archiveDownloadUrl Sample.location 7 <>
  API.archiveDownloadUrl Sample.location 12.
Proof.
  apply (archive_links_are_distinct Sample.location 7 12);
    [reflexivity | reflexivity | discriminate].
Defined.

End LinkFacts.

(* ------------------------------------------------------------------ *)
(** ** The highlighted node of the diagram                              *)

Module HighlightFacts.
Import Dom Flow FlowState WSClient.

Lemma tidy_unmark (f : flow_state) : tidy f -> unmark_previous f = [].
Proof.
  unfold tidy, unmark_previous; destruct f as [s a p]; simpl.
  destruct a as [|x [|y a]]; intros H.
  - destruct p; reflexivity.
  - subst p; simpl. rewrite String.eqb_refl; reflexivity.
  - contradiction.
Qed.

Lemma highlight_tidy (B : Js.builtins) (agent : Js.value) (p : page) :
  tidy (flow p) -> tidy (flow (final (highlight B agent p))).
Proof.
  intros H; unfold highlight; cbv zeta.
  destruct (lookup B agent) as [id| |]; [| |exact H];
    destruct (svg (flow p)); try exact H;
    rewrite (tidy_unmark _ H).
  - destruct (existsb _ _); simpl; unfold tidy; simpl; auto.
  - simpl; unfold tidy; simpl; auto.
Qed.

(** X4.  Highlighting a known agent whose node is in the rendered diagram
    leaves exactly that node highlighted, whatever was highlighted before,
    and remembers it as the previous node; nothing else on the page
    changes. *)
Theorem highlight_marks_one_node :
  forall (B : Js.builtins) (agent : Js.value) (id : string)
         (ids : list string) (p : page),
    tidy (flow p) ->
    svg (flow p) = Some ids ->
    lookup B agent = Own id ->
    existsb (String.eqb id) ids = true ->
    highlight B agent p =
    Done (set_flow {| svg := Some ids;
                      active := [id];
                      prevAgentNode := Some id |} p).
Proof.
  intros B agent id ids p Ht Hs Hl He.
  unfold highlight; cbv zeta.
  rewrite Hl, Hs, He, (tidy_unmark _ Ht); reflexivity.
Qed.

Lemma highlight_marks_one_node_witness :
  highlight Sample.engine (Js.Str "QA")
    (final (highlight Sample.engine (Js.Str "Security") Fixture.page1)) =
  Done (set_flow {| svg := Some ["DBD"; "UI"; "CODE"; "QA"; "SEC"; "PATCH"];
                    active := ["QA"];
                    prevAgentNode := Some "QA" |}
          (final (highlight Sample.engine (Js.Str "Security") Fixture.page1))).
Proof.
  apply (highlight_marks_one_node Sample.engine (Js.Str "QA") "QA"
           ["DBD"; "UI"; "CODE"; "QA"; "SEC"; "PATCH"]).
  - vm_compute; reflexivity.
  - reflexivity.
  - reflexivity.
  - reflexivity.
Defined.

(** The page after one message, branch by branch. *)
Lemma handle_page (B : Js.builtins) (msg : Js.value) (w : world) :
  pg (final (_handle B msg w)) =
  if Js.nullish msg then pg w
  else if Js.truthy (Js.get msg "archive_id")
  then set_download (download_href msg) false (pg w)
  else
    match (if Js.truthy (Js.get msg "current_agent")
           then highlight B (Js.get msg "current_agent")
                  (set_currentAgent (Js.get msg "current_agent") (pg w))
           else Done (pg w)) with
    | Thrown _ p => p
    | Done p =>
        if Js.truthy (Js.get msg "step_name")
        then set_currentPhase (Js.get msg "step_name") p
        else p
    end.
Proof.
  unfold _handle.
  destruct (Js.nullish msg); [reflexivity|].
  destruct (Js.truthy (Js.get msg "archive_id")); [reflexivity|].
  unfold seq, when, skip, assign, on_page, try_catch; simpl.
  destruct (Js.truthy (Js.get msg "current_agent")); simpl;
    [destruct (highlight B _ _) as [p'|e p']; simpl|];
    destruct (Js.truthy (Js.get msg "step_name")); simpl;
    try (destruct (Js.truthy (Js.get msg "from_agent")); simpl);
    try (destruct (negb _); simpl; rewrite ?WSClientFacts.chart_push_raises);
    reflexivity.
Qed.

Lemma handle_tidy (B : Js.builtins) (msg : Js.value) (w : world) :
  tidy (flow (pg w)) -> tidy (flow (pg (final (_handle B msg w)))).
Proof.
  intros H; rewrite handle_page.
  destruct (Js.nullish msg); [exact H|].
  destruct (Js.truthy (Js.get msg "archive_id")); [exact H|].
  pose proof (highlight_tidy B (Js.get msg "current_agent")
                (set_currentAgent (Js.get msg "current_agent") (pg w)) H)
    as Hh.
  destruct (Js.truthy (Js.get msg "current_agent"));
    [destruct (highlight B _ _) as [p'|e p']; simpl in Hh|];
    destruct (Js.truthy (Js.get msg "step_name")); assumption.
Qed.

Lemma step_page (B : Js.builtins) (e : event) (w : world) :
  pg (step B e w) = pg w \/
  exists msg, pg (step B e w) = pg (final (_handle B msg (note_handled msg w))).
Proof.
  destruct e as [r|r data|r|d r]; simpl.
  - destruct (has_socket r w); left; reflexivity.
  - destruct (has_socket r w); [|left; reflexivity].
    destruct data as [msg|]; simpl; [right; exists msg|left]; reflexivity.
  - destruct (has_socket r w); [|left; reflexivity].
    unfold onclose; destruct (r <? 5)%nat; left; reflexivity.
  - destruct (has_timer (d, r) w); left; reflexivity.
Qed.

(** X5.  Along the whole life of a client, whatever it receives and however
    often it reconnects, at most one node of the diagram is highlighted,
    and that node is the one [window._prevAgentNode] remembers, provided
    this was so when the client started (as it is after rendering). *)
Theorem at_most_one_node_highlighted :
  forall (B : Js.builtins) (es : list event) (w : world),
    tidy (flow (pg w)) ->
    tidy (flow (pg (run B es w))) /\
    List.length (active (flow (pg (run B es w)))) <= 1.
Proof.
  intros B es w H.
  assert (Ht : tidy (flow (pg (run B es w)))).
  { revert w H; unfold run; induction es as [|e es IH]; intros w H; simpl;
      [exact H|].
    apply IH.
    destruct (step_page B e w) as [Hp|[msg Hp]]; rewrite Hp; [exact H|].
    apply handle_tidy; exact H. }
  split; [exact Ht|].
  unfold tidy in Ht.
  destruct (active (flow (pg (run B es w)))) as [|x [|y l]]; simpl;
    [lia | lia | contradiction].
Qed.

Lemma at_most_one_node_highlighted_witness :
  List.length
    (active (flow (pg (run Sample.engine
                         [ Message 0 (Some Sample.qa_event);
                           Message 0 (Some Sample.security_event) ]
                         Fixture.world1)))) <= 1.
Proof.
  apply (at_most_one_node_highlighted Sample.engine
           [ Message 0 (Some Sample.qa_event);
             Message 0 (Some Sample.security_event) ] Fixture.world1).
  vm_compute; exact I.
Defined.

(** X6.  A message delivered twice in a row leaves the page exactly as one
    delivery does: every assignment of [_handle] overwrites, and
    highlighting the node that is already highlighted changes nothing. *)
Theorem repeated_message_changes_nothing :
  forall (B : Js.builtins) (msg : Js.value) (w : world),
    tidy (flow (pg w)) ->
    pg (final (_handle B msg (final (_handle B msg w)))) =
    pg (final (_handle B msg w)).
Proof.
  intros B msg w H.
  rewrite (handle_page B msg (final (_handle B msg w))).
  rewrite (handle_page B msg w).
  destruct (Js.nullish msg); [reflexivity|].
  destruct (Js.truthy (Js.get msg "archive_id")); [reflexivity|].
  destruct (Js.truthy (Js.get msg "current_agent"));
    destruct (Js.truthy (Js.get msg "step_name")); try reflexivity;
    unfold highlight; cbv zeta;
    destruct (lookup B (Js.get msg "current_agent")) as [id| |];
    try reflexivity;
    destruct (svg (flow (pg w))) as [ids|] eqn:Hsvg;
    try (destruct (existsb (String.eqb id) ids) eqn:Hin);
    repeat (progress (cbn; rewrite ?Hsvg, ?Hin, ?(tidy_unmark _ H)));
    unfold unmark_previous, classList_remove, classList_add; cbn;
    rewrite ?String.eqb_refl; cbn;
    try (destruct (prevAgentNode (flow (pg w))); cbn);
    reflexivity.
Qed.

Lemma repeated_message_changes_nothing_witness :
  pg (final (_handle Sample.engine Sample.qa_event
               (final (_handle Sample.engine Sample.qa_event
                         Fixture.world1)))) =
  pg (final (_handle Sample.engine Sample.qa_event Fixture.world1)).
Proof.
  apply (repeated_message_changes_nothing Sample.engine Sample.qa_event
           Fixture.world1).
  vm_compute; exact I.
Defined.

End HighlightFacts.

(* ------------------------------------------------------------------ *)
(** ** The WebSocket client: what it writes, and its connections        *)

Module ClientPageFacts.
Import Dom WSClient.

Lemma handle_download (B : Js.builtins) (msg : Js.value) (w : world) :
  downloadLink_href (pg (final (_handle B msg w))) =
    (if Js.truthy (Js.get msg "archive_id") then download_href msg
     else downloadLink_href (pg w)) /\
  download_section_hidden (pg (final (_handle B msg w))) =
    (if Js.truthy (Js.get msg "archive_id") then false
     else download_section_hidden (pg w)).
Proof.
  pose proof (WSClientFacts.handle_display B msg w) as H.
  assert (Hh : shown_href (display_of (final (_handle B msg w))) =
               shown_href (apply_writes (writes_of B (has_diagram w) msg)
                                        (display_of w)))
    by (rewrite H; reflexivity).
  assert (Hd : shown_hidden (display_of (final (_handle B msg w))) =
               shown_hidden (apply_writes (writes_of B (has_diagram w) msg)
                                          (display_of w)))
    by (rewrite H; reflexivity).
  simpl in Hh, Hd; rewrite Hh, Hd; clear H Hh Hd.
  unfold writes_of.
  destruct msg; simpl; try (split; reflexivity).
  destruct (Js.truthy (Js.assoc "archive_id" fields)); split; reflexivity.
Qed.

(** X7.  The download section over a whole stream of messages.  Its link is
    the one built from the last message that carries a truthy [archive_id],
    and it is visible, as soon as there is such a message; otherwise link
    and visibility are what they were.  So no message ever hides the section
    again once it is shown. *)
Theorem download_follows_last_archive :
  forall (B : Js.builtins) (msgs : list Js.value) (w : world),
    match List.find (fun m => Js.truthy (Js.get m "archive_id")) (rev msgs)
    with
    | Some m =>
        downloadLink_href (pg (handle_all B msgs w)) = download_href m /\
        download_section_hidden (pg (handle_all B msgs w)) = false
    | None =>
        downloadLink_href (pg (handle_all B msgs w)) =
          downloadLink_href (pg w) /\
        download_section_hidden (pg (handle_all B msgs w)) =
          download_section_hidden (pg w)
    end.
Proof.
  intros B msgs w; induction msgs as [|m msgs IH] using rev_ind.
  - simpl; auto.
  - rewrite WSClientFacts.handle_all_app, List.rev_app_distr; simpl.
    destruct (handle_download B m (handle_all B msgs w)) as [Hh Hd].
    rewrite Hh, Hd.
    destruct (Js.truthy (Js.get m "archive_id")); [auto|exact IH].
Qed.

Lemma handle_rest (B : Js.builtins) (msg : Js.value) (w : world) :
  Frame.same_rest (pg w) (pg (final (_handle B msg w))).
Proof.
  rewrite HighlightFacts.handle_page.
  destruct (Js.nullish msg); [repeat split|].
  destruct (Js.truthy (Js.get msg "archive_id")); [repeat split|].
  unfold Flow.highlight; cbv zeta.
  destruct (Js.truthy (Js.get msg "current_agent"));
    destruct (Js.truthy (Js.get msg "step_name"));
    try (destruct (Flow.lookup B (Js.get msg "current_agent")));
    cbn;
    try (destruct (svg (flow (pg w))) eqn:Hsvg);
    try (destruct (existsb _ _));
    unfold Frame.same_rest; cbn; rewrite ?Hsvg; repeat split.
Qed.

Lemma same_rest_trans (p q r : page) :
  Frame.same_rest p q -> Frame.same_rest q r -> Frame.same_rest p r.
Proof.
  unfold Frame.same_rest; intros Hpq Hqr.
  decompose [and] Hpq; decompose [and] Hqr; repeat split; congruence.
Qed.

Lemma same_rest_refl (p : page) : Frame.same_rest p p.
Proof. repeat split. Qed.

(** X8.  Whatever a client receives and however its sockets open and close, it
    never writes to the step log, to the list of agent interactions, to the
    toasts, to the history table or to [window.costChart]: of the page it
    changes the agent and phase texts, the download link and the highlight,
    and nothing else. *)
Theorem client_writes_status_only :
  forall (B : Js.builtins) (es : list event) (w : world),
    Frame.same_rest (pg w) (pg (run B es w)).
Proof.
  intros B es; unfold run; induction es as [|e es IH]; intros w; simpl.
  - apply same_rest_refl.
  - apply same_rest_trans with (q := pg (step B e w)); [|apply IH].
    destruct (HighlightFacts.step_page B e w) as [Hp|[msg Hp]]; rewrite Hp.
    + apply same_rest_refl.
    + apply (handle_rest B msg (note_handled msg w)).
Qed.

(** X9.  A progress message that names a step or a sending agent never gets
    through [_handle]: the call of [UI.appendUL], which ui.js does not
    define, raises a TypeError, unless highlighting the agent raised
    before. *)
Theorem step_message_raises :
  forall (B : Js.builtins) (msg : Js.value) (w : world),
    Js.truthy (Js.get msg "archive_id") = false ->
    Js.truthy (Js.get msg "step_name") = true \/
    Js.truthy (Js.get msg "from_agent") = true ->
    raised (_handle B msg w) = Some TypeError \/
    raised (_handle B msg w) = Some SyntaxError.
Proof.
  intros B msg w Harch Hsome; unfold _handle.
  assert (Hn : Js.nullish msg = false).
  { destruct msg; try reflexivity; simpl in Hsome;
      destruct Hsome; discriminate. }
  rewrite Hn, Harch.
  unfold seq, when, skip, assign, on_page, try_catch, Flow.highlight; simpl.
  destruct (Js.truthy (Js.get msg "current_agent")); simpl;
    try (destruct (Flow.lookup B (Js.get msg "current_agent")); simpl;
         destruct (svg (flow (pg w))); simpl;
         try (destruct (existsb _ _); simpl));
    destruct (Js.truthy (Js.get msg "step_name")); simpl; auto;
    destruct Hsome as [Hs|Hf]; try discriminate; rewrite Hf; simpl; auto.
Qed.

Lemma step_message_raises_witness :
  raised (_handle Sample.engine Fixture.qa_step Fixture.world1) =
    Some TypeError \/
  raised (_handle Sample.engine Fixture.qa_step Fixture.world1) =
    Some SyntaxError.
Proof.
  apply (step_message_raises Sample.engine Fixture.qa_step Fixture.world1).
  - reflexivity.
  - left; reflexivity.
Defined.

Lemma lookup_inherited (B : Js.builtins) (k : string) :
  In k Flow.object_prototype -> Flow.lookup B (Js.Str k) = Flow.Inherited.
Proof.
  unfold Flow.object_prototype; simpl; intros H.
  repeat (destruct H as [H|H]; [subst k; reflexivity|]).
  contradiction.
Qed.

(** X10.  An agent called like a property every object inherits
    ([constructor], [toString], [__proto__], ...) is found by
    [AGENT_NODE_MAP[agent]] although it is no agent.  With a diagram on the
    page the selector built from it is invalid: [_handle] shows the name as
    current agent, then [Flow.highlight] raises a SyntaxError, and the rest
    of the message is dropped, so the phase shown stays the old one. *)
Theorem inherited_agent_name_raises :
  forall (B : Js.builtins) (k : string) (msg : Js.value) (w : world)
         (ids : list string),
    In k Flow.object_prototype ->
    Js.get msg "current_agent" = Js.Str k ->
    Js.truthy (Js.get msg "archive_id") = false ->
    svg (flow (pg w)) = Some ids ->
    raised (_handle B msg w) = Some SyntaxError /\
    currentAgent (pg (final (_handle B msg w))) = Js.Str k /\
    currentPhase (pg (final (_handle B msg w))) = currentPhase (pg w).
Proof.
  intros B k msg w ids Hk Hagent Harch Hsvg.
  assert (Hn : Js.nullish msg = false).
  { destruct msg; try reflexivity; discriminate Hagent. }
  assert (Ht : Js.truthy (Js.Str k) = true).
  { unfold Flow.object_prototype in Hk; simpl in Hk.
    repeat (destruct Hk as [Hk|Hk]; [subst k; reflexivity|]).
    contradiction. }
  unfold _handle; rewrite Hn, Harch, Hagent, Ht.
  unfold seq, when, skip, assign, on_page, try_catch, Flow.highlight;
    cbv zeta.
  rewrite (lookup_inherited B k Hk); cbn.
  rewrite Hsvg; cbn. auto.
Qed.

Lemma inherited_agent_name_raises_witness :
  raised (_handle Sample.engine Fixture.odd_agent Fixture.world1) =
  Some SyntaxError.
Proof.
  apply (inherited_agent_name_raises Sample.engine "constructor"
           Fixture.odd_agent Fixture.world1
           ["DBD"; "UI"; "CODE"; "QA"; "SEC"; "PATCH"]).
  - simpl; auto.
  - reflexivity.
  - reflexivity.
  - reflexivity.
Defined.

Lemma backoff_range (n : nat) :
  n < 5 -> (1000 <= backoff n <= 16000)%Z.
Proof.
  intros H; unfold backoff.
  destruct n as [|[|[|[|[|n]]]]]; simpl; lia.
Qed.

(** X11.  A client never holds two connections, nor a connection and a pending
    reconnection, nor two pending reconnections: at any time there is at
    most one open socket or one timer.  A pending timer for the n-th
    reconnection (n from 1 to 5) waits 1000 * 2^(n-1) milliseconds, between
    one and sixteen seconds. *)
Theorem one_connection_at_a_time :
  forall (B : Js.builtins) (es : list event) (workflowId : Js.value)
         (chartRef : chart_ref) (p : page),
    List.length
      (sockets (cl (run B es {| pg := p;
                                cl := constructor workflowId chartRef |})))
    + List.length
        (timers (cl (run B es {| pg := p;
                                 cl := constructor workflowId chartRef |})))
    <= 1 /\
    forall (d : Z) (n : nat),
      In (d, n)
         (timers (cl (run B es {| pg := p;
                                  cl := constructor workflowId chartRef |}))) ->
      1 <= n <= 5 /\ d = backoff (n - 1) /\ (1000 <= d <= 16000)%Z.
Proof.
  intros B es wid r p.
  pose proof (WSClientFacts.run_lifecycle B es
                {| pg := p; cl := constructor wid r |}
                (or_introl (ex_intro _ 0
                              (WSClientFacts.lifecycle_constructor wid r))))
    as H.
  destruct H as [[n (Hs & Ht & _)]|[[n (Hs & Ht & _ & _ & Hlt)]|(Hs & Ht & _)]];
    rewrite Hs, Ht; simpl; (split; [lia|]); intros d k Hin;
    try contradiction.
  destruct Hin as [Heq|[]]; inversion Heq; subst d k.
  replace (S n - 1) with n by lia.
  split; [lia|]. split; [reflexivity|]. apply backoff_range, Hlt.
Qed.

End ClientPageFacts.

(* ------------------------------------------------------------------ *)
(** ** main.js: the two buttons                                         *)

Module ButtonFacts.
Import Dom.




End ButtonFacts.

(* ------------------------------------------------------------------ *)
(** ** The cost progress bar: mounting and the stream of updates        *)

Module CostStreamFacts.
Import CostProgress CostProgressApp.

Lemma onmessage_cases (data : option Js.value) (c : Js.number) :
  onmessage data c = c \/
  exists msg, data = Some msg /\
              Js.get msg "type" = Js.Str "cost_update" /\
              Js.get msg "total_cost" = Js.Num (onmessage data c).
Proof.
  destruct data as [msg|]; simpl; [|auto].
  destruct (Js.nullish msg); [auto|].
  destruct (Js.get msg "type") eqn:Ht; auto.
  destruct (Js.get msg "total_cost") eqn:Hc; auto.
  destruct (String.eqb_spec s "cost_update"); [|auto].
  subst s; right; exists msg; auto.
Qed.

Lemma run_messages_snoc (stream : list (option Js.value))
      (data : option Js.value) (c0 : Js.number) :
  run_messages (stream ++ [data]) c0 = onmessage data (run_messages stream c0).
Proof. unfold run_messages; rewrite fold_left_app; reflexivity. Qed.

(** X14.  The component never computes a cost: after any stream of payloads the
    current cost is the initial one, or it is, unchanged, the [total_cost]
    of a [cost_update] message of the stream.  Totals are replaced, not
    added up; payloads that do not parse, [null], messages of another type
    and totals that are not numbers leave the cost alone. *)
Theorem cost_is_a_received_total :
  forall (stream : list (option Js.value)) (c0 : Js.number),
    run_messages stream c0 = c0 \/
    exists msg,
      In (Some msg) stream /\
      Js.get msg "type" = Js.Str "cost_update" /\
      Js.get msg "total_cost" = Js.Num (run_messages stream c0).
Proof.
  intros stream c0; induction stream as [|d stream IH] using rev_ind.
  - left; reflexivity.
  - rewrite run_messages_snoc.
    destruct (onmessage_cases d (run_messages stream c0))
      as [Hsame|[msg (Hd & Ht & Hc)]].
    + rewrite Hsame.
      destruct IH as [IH|[msg (Hin & Ht & Hc)]]; [left; exact IH|].
      right; exists msg; split; [|auto].
      apply List.in_or_app; left; exact Hin.
    + right; exists msg; split; [|auto].
      apply List.in_or_app; right; left; exact Hd.
Qed.

Lemma le_zero_not_positive (x : Js.number) :
  Js.is_finite x = true ->
  Js.le x Js.pos_zero = negb (Js.gt x Js.pos_zero).
Proof.
  destruct x as [s|s| |s m e]; simpl; try discriminate; intros _;
    destruct s; reflexivity.
Qed.

(** The test of the mount handler is the negation of [mountable]. *)
Lemma rejected_not_mountable (w m : Js.number) :
  rejected w m = negb (mountable w m).
Proof.
  unfold rejected, mountable.
  destruct (Js.is_finite w) eqn:Hw; simpl; [|reflexivity].
  rewrite (le_zero_not_positive w Hw).
  destruct (Js.gt w Js.pos_zero); simpl; [|reflexivity].
  destruct (Js.is_finite m) eqn:Hm; simpl; [|reflexivity].
  rewrite (le_zero_not_positive m Hm).
  destruct (Js.gt m Js.pos_zero); reflexivity.
Qed.

Lemma mount_mountable (B : Js.builtins) (el : option mount_point)
      (g : globals) (p : props) :
  mount B el g = Some p -> mountable (workflowId p) (maxCost p) = true.
Proof.
  unfold mount; destruct el as [el|]; [|discriminate]; cbv zeta.
  rewrite rejected_not_mountable.
  destruct (mountable _ _) eqn:Hm; simpl; [|discriminate].
  intros H; inversion H; subst p; simpl; exact Hm.
Qed.

(** X15.  Whatever the data attributes and the two globals hold, a component
    that gets mounted has a finite, positive workflow id and a finite,
    positive maximal cost; so [onMounted] never skips its socket, and opens
    it on [wss] exactly when the page was loaded over https. *)
Theorem mounted_component_connects :
  forall (B : Js.builtins) (el : option mount_point) (g : globals)
         (p : props) (loc : Config.location),
    mount B el g = Some p ->
    Js.is_finite (workflowId p) = true /\
    Js.gt (workflowId p) Js.pos_zero = true /\
    Js.is_finite (maxCost p) = true /\
    Js.gt (maxCost p) Js.pos_zero = true /\
    socket_url loc p =
    Some [ Js.Lit (if Config.protocol loc =? "https:" then "wss" else "ws");
           Js.Lit "://"; Js.Lit (Config.host loc); Js.Lit "/api/cost/ws/";
           Js.Hole (Js.Num (workflowId p)) ].
Proof.
  intros B el g p loc H.
  apply mount_mountable in H; unfold mountable in H.
  rewrite !andb_true_iff in H; destruct H as [[[Hw Hwp] Hm] Hmp].
  repeat (split; [assumption|]).
  unfold socket_url.
  rewrite (le_zero_not_positive _ Hw), Hw, Hwp; reflexivity.
Qed.

Lemma mounted_component_connects_witness :
  socket_url Sample.location
    {| workflowId := Js.one; maxCost := Js.hundred |} =
  Some [ Js.Lit "ws"; Js.Lit "://"; Js.Lit "localhost:8081";
         Js.Lit "/api/cost/ws/"; Js.Hole (Js.Num Js.one) ].
Proof.
  apply (mounted_component_connects Sample.engine
           (Some Fixture.bare_mount_point) Fixture.cost_globals
           {| workflowId := Js.one; maxCost := Js.hundred |}
           Sample.location).
  reflexivity.
Defined.

Lemma run_messages_nonneg (stream : list (option Js.value)) :
  Forall reports_nonneg stream ->
  Js.ge (run_messages stream initial_cost) Js.pos_zero = true.
Proof.
  induction stream as [|d stream IH] using rev_ind; intros H.
  - reflexivity.
  - rewrite run_messages_snoc.
    apply List.Forall_app in H; destruct H as [Hs Hd].
    destruct (onmessage_cases d (run_messages stream initial_cost))
      as [Hsame|[msg (Hdm & Ht & Hc)]].
    + rewrite Hsame; apply IH, Hs.
    + inversion Hd as [|? ? Hrep _]; subst.
      apply (Hrep Ht _ Hc).
Qed.

(** X16.  In a component mounted by the page, the width of the bar is between
    0 and 100 per cent after every stream of messages whose totals are not
    negative, however large these totals are: the mount test has ruled out a
    maximal cost that is infinite, zero, negative or not a number. *)
Theorem mounted_bar_within_bounds :
  forall (B : Js.builtins) (el : option mount_point) (g : globals)
         (p : props) (stream : list (option Js.value)),
    mount B el g = Some p ->
    Forall reports_nonneg stream ->
    Js.ge (fillPercentage (run_messages stream initial_cost) (maxCost p))
          Js.pos_zero = true /\
    Js.le (fillPercentage (run_messages stream initial_cost) (maxCost p))
          Js.hundred = true.
Proof.
  intros B el g p stream Hmount Hstream.
  pose proof (mount_mountable B el g p Hmount) as Hm.
  pose proof (CostProgressFacts.mountable_finite _ _ Hm) as Hfin.
  unfold mountable in Hm; rewrite !andb_true_iff in Hm.
  destruct Hm as [[[_ _] _] Hpos].
  pose proof (run_messages_nonneg stream Hstream) as Hc.
  unfold fillPercentage; rewrite Hpos.
  apply NumberFacts.gt_zero_positive in Hpos.
  apply NumberFacts.ge_zero_nonneg in Hc.
  assert (Hinf : ~ (run_messages stream initial_cost = S754_infinity false /\
                    maxCost p = S754_infinity false)).
  { intros [_ Hm']; apply Hfin; exact Hm'. }
  pose proof (NumberFacts.SFdiv_nonneg Js.prec Js.emax _ _ Hc Hpos Hinf) as Hq.
  pose proof (NumberFacts.SFmul_nonneg Js.prec Js.emax _
                (25 * 2 ^ 48) (-46) Hq) as Hp.
  destruct (NumberFacts.min_hundred_bounds _ Hp) as [H0 H100].
  split; [apply NumberFacts.ge_zero_nonneg; exact H0 | exact H100].
Qed.

Lemma mounted_bar_within_bounds_witness :
  Js.ge (fillPercentage
           (run_messages [None; Some Fixture.cost_update] initial_cost)
           Js.one)
        Js.pos_zero = true /\
  Js.le (fillPercentage
           (run_messages [None; Some Fixture.cost_update] initial_cost)
           Js.one)
        Js.hundred = true.
Proof.
  apply (mounted_bar_within_bounds Sample.engine
           (Some Fixture.bare_mount_point) Fixture.unit_globals
           {| workflowId := Js.one; maxCost := Js.one |}
           [None; Some Fixture.cost_update]).
  - reflexivity.
  - repeat constructor.
    intros _ c Hc; inversion Hc; reflexivity.
Defined.

End CostStreamFacts.

(* ------------------------------------------------------------------ *)
(** ** file_upload.js                                                   *)

Module FileUploadFacts.
Import Dom FileUpload.

Lemma form_eta (s : form) :
  {| files := files s; uploadList := uploadList s;
     document := document s; posted := posted s |} = s.
Proof. destruct s; reflexivity. Qed.

(** [UI] has neither [showErrorToast] nor [toast]. *)
Lemma on_ui_missing (args : list Js.template) (s : form) :
  on_ui (UI.call "showErrorToast" args) s = Thrown TypeError s /\
  on_ui (UI.call "toast" args) s = Thrown TypeError s.
Proof. unfold on_ui; simpl; rewrite form_eta; auto. Qed.

(** X17.  The submit handler never gets to tell the user anything: in every
    case it ends in a TypeError, because [UI.showErrorToast] and [UI.toast]
    are not methods of [UI], and the page with its toasts is as before.
    Without a file chosen nothing is sent and nothing changes; with files
    chosen exactly one request is sent, carrying them, and if it is
    rejected the selection and the list shown stay as they were. *)
Theorem upload_never_reports :
  forall (describe : error -> string) (net : network) (s : form),
    raised (onSubmit describe net s) = Some TypeError /\
    document (final (onSubmit describe net s)) = document s /\
    match files s with
    | [] => final (onSubmit describe net s) = s
    | _ :: _ =>
        posted (final (onSubmit describe net s)) = posted s ++ [files s] /\
        match uploadFiles net (files s) with
        | inr _ =>
            files (final (onSubmit describe net s)) = files s /\
            uploadList (final (onSubmit describe net s)) = uploadList s
        | inl _ => True
        end
    end.
Proof.
  intros describe net s; unfold onSubmit.
  destruct (files s) as [|f fs] eqn:Hfiles.
  - rewrite (proj1 (on_ui_missing _ s)); simpl; auto.
  - unfold try_block; cbv zeta; rewrite Hfiles.
    destruct (uploadFiles net (f :: fs)) as [res|e].
    + destruct (Js.nullish res);
        [|destruct (entries (Js.get res "uploaded")) as [lis|]];
        rewrite ?(proj2 (on_ui_missing _ _));
        rewrite (proj1 (on_ui_missing _ _)); simpl; auto.
    + rewrite (proj1 (on_ui_missing _ _)); simpl; auto.
Qed.



End FileUploadFacts.

(* ------------------------------------------------------------------ *)
(** ** auth.js                                                          *)

Module AuthFacts.
Import Dom Auth.

Lemma initApp_keeps (modules : Js.value -> page -> outcome page)
      (user : Js.value) (s : state) :
  errorMessage (final (initApp modules user s)) = errorMessage s /\
  listening (final (initApp modules user s)) = listening s /\
  submit_disabled (final (initApp modules user s)) = submit_disabled s /\
  requests (final (initApp modules user s)) = requests s.
Proof.
  unfold initApp.
  destruct (welcome_header s); [auto|].
  destruct (Js.nullish user); [simpl; auto|].
  unfold on_document; destruct (modules user _); simpl; auto.
Qed.

Lemma initApp_greets (modules : Js.value -> page -> outcome page)
      (user : Js.value) (s : state) :
  Js.nullish user = false ->
  welcome_header (final (initApp modules user s)) <> None.
Proof.
  intros Hu; unfold initApp.
  destruct (welcome_header s) eqn:Hh; [simpl; congruence|].
  rewrite Hu; unfold on_document.
  destruct (modules user _); simpl; discriminate.
Qed.

(** X19.  The guard of [initApp] holds: once the welcome header is on the page,
    which it is after the first call for a user other than [null], even if
    that call raised while initialising the modules, every later call
    returns at once and changes nothing. *)
Theorem initApp_runs_once :
  forall (modules modules' : Js.value -> page -> outcome page)
         (user user' : Js.value) (s : state),
    Js.nullish user = false ->
    initApp modules' user' (final (initApp modules user s)) =
    Done (final (initApp modules user s)).
Proof.
  intros modules modules' user user' s Hu.
  pose proof (initApp_greets modules user s Hu) as Hh.
  unfold initApp at 1.
  destruct (welcome_header (final (initApp modules user s)));
    [reflexivity | contradiction Hh; reflexivity].
Qed.

Lemma initApp_runs_once_witness :
  initApp Fixture.modules Fixture.alice
    (final (initApp Fixture.modules Fixture.alice Fixture.login_screen)) =
  Done (final (initApp Fixture.modules Fixture.alice Fixture.login_screen)).
Proof.
  apply (initApp_runs_once Fixture.modules Fixture.modules
           Fixture.alice Fixture.alice Fixture.login_screen).
  reflexivity.
Defined.

Lemma user_of_not_nullish (profileJson : Js.value) :
  Js.nullish profileJson = false -> Js.nullish (user_of profileJson) = false.
Proof.
  intros H; unfold user_of.
  destruct (Js.nullish (Js.get profileJson "data")) eqn:Hd; assumption.
Qed.

(** X20.  The requests of one submission.  With the user name or the password
    empty after trimming, nothing is sent.  Otherwise the login request is
    sent with the trimmed values, and the profile request follows exactly
    when the login answer was OK; nothing else is requested, and nothing
    twice. *)
Theorem login_requests :
  forall (trim : string -> string)
         (modules : Js.value -> page -> outcome page) (net : network)
         (username password : option string) (s : state),
    requests (onLoginSubmit trim modules net username password s) =
    requests s ++
    (if (field trim username =? EmptyString)
        || (field trim password =? EmptyString)
     then []
     else
       match login net (field trim username) (field trim password) with
       | Some loginRes =>
           if ok loginRes
           then [ LoginRequest (field trim username) (field trim password);
                  ProfileRequest ]
           else [ LoginRequest (field trim username) (field trim password) ]
       | None =>
           [ LoginRequest (field trim username) (field trim password) ]
       end).
Proof.
  intros trim modules net username password s.
  unfold onLoginSubmit; cbv zeta.
  destruct ((field trim username =? EmptyString)
            || (field trim password =? EmptyString));
    [simpl; rewrite List.app_nil_r; reflexivity|].
  unfold try_block; cbv zeta.
  destruct (login net _ _) as [loginRes|]; [|reflexivity].
  destruct (ok loginRes); simpl; [|reflexivity].
  destruct (profile net) as [profileRes|];
    [|simpl; rewrite <- List.app_assoc; reflexivity].
  destruct (ok profileRes); simpl;
    [|rewrite <- List.app_assoc; reflexivity].
  destruct (answer_json profileRes) as [profileJson|];
    [|simpl; rewrite <- List.app_assoc; reflexivity].
  destruct (Js.nullish profileJson);
    [simpl; rewrite <- List.app_assoc; reflexivity|].
  unfold seq, on_document; simpl.
  match goal with
  | |- context [initApp modules ?u ?s0] =>
      destruct (initApp_keeps modules u s0) as (_ & _ & _ & Hr);
      destruct (initApp modules u s0) as [s'|e s']; simpl in *;
      rewrite Hr; simpl; rewrite <- List.app_assoc; reflexivity
  end.
Qed.

(** X21.  After a submission the submit button is enabled again, and the
    handler has unregistered itself exactly when no error message is shown:
    that is when both answers were OK, the profile was a JSON value other
    than [null] and [initApp] returned.  Then the welcome header is on the
    page.  After every failure the handler stays registered, so the user can
    try again. *)
Theorem listener_removed_on_success_only :
  forall (trim : string -> string)
         (modules : Js.value -> page -> outcome page) (net : network)
         (username password : option string) (s : state),
    listening s = true ->
    submit_disabled (onLoginSubmit trim modules net username password s)
      = false /\
    (listening (onLoginSubmit trim modules net username password s) = false
     <-> errorMessage (onLoginSubmit trim modules net username password s)
         = NoNotice) /\
    (listening (onLoginSubmit trim modules net username password s) = false
     -> welcome_header (onLoginSubmit trim modules net username password s)
        <> None).
Proof.
  intros trim modules net username password s Hl.
  unfold onLoginSubmit; cbv zeta.
  destruct ((field trim username =? EmptyString)
            || (field trim password =? EmptyString)).
  { simpl; rewrite Hl; repeat split; discriminate. }
  unfold try_block; cbv zeta.
  destruct (login net _ _) as [loginRes|];
    [|simpl; rewrite Hl; repeat split; discriminate].
  destruct (ok loginRes); simpl;
    [|rewrite Hl; repeat split; discriminate].
  destruct (profile net) as [profileRes|];
    [|simpl; rewrite Hl; repeat split; discriminate].
  destruct (ok profileRes); simpl;
    [|rewrite Hl; repeat split; discriminate].
  destruct (answer_json profileRes) as [profileJson|];
    [|simpl; rewrite Hl; repeat split; discriminate].
  destruct (Js.nullish profileJson) eqn:Hn;
    [simpl; rewrite Hl; repeat split; discriminate|].
  unfold seq, on_document; simpl.
  match goal with
  | |- context [initApp modules ?u ?s0] =>
      destruct (initApp_keeps modules u s0) as (He & Hk & _ & _);
      pose proof (initApp_greets modules u s0
                    (user_of_not_nullish _ Hn)) as Hh;
      destruct (initApp modules u s0) as [s'|e s']; simpl in *
  end.
  - rewrite He; repeat split; auto.
  - rewrite Hk, Hl; repeat split; discriminate.
Qed.

Lemma listener_removed_on_success_only_witness :
  listening (onLoginSubmit Fixture.no_trim Fixture.modules Fixture.server
               (Some "alice") (Some "secret") Fixture.login_screen) = false
  <-> errorMessage (onLoginSubmit Fixture.no_trim Fixture.modules
                      Fixture.server (Some "alice") (Some "secret")
                      Fixture.login_screen) = NoNotice.
Proof.
  apply (listener_removed_on_success_only
           Fixture.no_trim Fixture.modules Fixture.server
           (Some "alice") (Some "secret") Fixture.login_screen).
  reflexivity.
Defined.

End AuthFacts.
